(** * Custom Field Checker: the reconciliation core, embedded and verified

    A shallow embedding of [Custom_Field_Checker.py]: the two field
    validators ([check_fields_data], [check_s_t]), the identifier check
    ([find_student_ids]) and the tutor check ([find_tutors]).

    - A CSV row is a Python list of cells; a cell is a [str], and the
      validators also test for [None], so a cell is [VNone] or [VStr s].
    - A [str] is a [string], the sequence of its characters; [find],
      [in] and slicing count characters.
    - Indexing a row out of range raises [IndexError]; the substring test
      on [None] raises [TypeError].  Both are results of the model.
    - The [while i < len(xs)] loops are index loops with a step budget;
      the budget the functions pass is shown to be enough. *)

From Stdlib Require Import Ascii ZArith Lia.
From Stdlib Require String.
From stdpp Require Import base list strings.

(** ** Python values and exceptions *)

Inductive value : Type :=
  | VNone
  | VStr (s : string).

#[global] Instance value_eq_dec : EqDecision value.
Proof. solve_decision. Defined.

(** A CSV row: the list of its cells. *)
Abbreviation row := (list value).

Inductive exn : Type :=
  | IndexError
  | TypeError.

(** The outcome of running a piece of the program: a value, a raised
    exception, or [Loop] when an index loop used up its step budget. *)
Inductive result (A : Type) : Type :=
  | Ok (a : A)
  | Raise (e : exn)
  | Loop.

Arguments Ok {A} a.
Arguments Raise {A} e.
Arguments Loop {A}.

(** Sequencing: the first exception (or exhausted budget) ends the run. *)
Definition bind {A B : Type} (m : result A) (k : A → result B) : result B :=
  match m with
  | Ok a => k a
  | Raise e => Raise e
  | Loop => Loop
  end.

Notation "'let*' x ':=' m 'in' k" := (bind m (fun x => k))
  (at level 10, x name, m at level 100, k at level 200).

(** [xs[i]] on a list. *)
Definition getitem {A : Type} (xs : list A) (i : nat) : result A :=
  match xs !! i with
  | Some x => Ok x
  | None => Raise IndexError
  end.

(** ** Python string primitives *)

(** [s.find(sub)]: the lowest index where [sub] occurs, or [-1]. *)
Definition str_find (s sub : string) : Z :=
  match String.index 0 sub s with
  | Some p => Z.of_nat p
  | None => (-1)%Z
  end.

(** A slice bound as the interpreter adjusts it: a negative bound counts
    from the end, and every bound is clipped to [0 .. len]. *)
Definition slice_bound (len : nat) (x : Z) : nat :=
  if (x <? 0)%Z then Z.to_nat (x + Z.of_nat len)
  else Nat.min (Z.to_nat x) len.

(** [s[lo:hi]]. *)
Definition str_slice (s : string) (lo hi : Z) : string :=
  let len := String.length s in
  let start := slice_bound len lo in
  let stop := slice_bound len hi in
  String.substring start (stop - start) s.

(** [sub in s] on two [str]. *)
Definition str_contains (sub s : string) : bool :=
  match String.index 0 sub s with
  | Some _ => true
  | None => false
  end.

(** [a in b] as the interpreter runs it: both operands must be [str]. *)
Definition py_in (a b : value) : result bool :=
  match a, b with
  | VStr sub, VStr s => Ok (str_contains sub s)
  | _, _ => Raise TypeError
  end.

(** [x in (None, '')]. *)
Definition blank (x : value) : bool :=
  bool_decide (x = VNone) || bool_decide (x = VStr "").

(** [str(x)], as ['{}'.format(x)] prints a cell. *)
Definition py_str (x : value) : string :=
  match x with
  | VNone => "None"
  | VStr s => s
  end.

(** ** Index loops *)

(** [i = i0; while i < len(xs): x = xs[i]; <body>; i += 1] with the loop
    state threaded through [body]. *)
Fixpoint while_index {A St : Type} (body : A → St → result St)
    (xs : list A) (fuel i : nat) (s : St) : result St :=
  match xs !! i with
  | None => Ok s
  | Some x =>
    match fuel with
    | 0 => Loop
    | S fuel' => let* s' := body x s in while_index body xs fuel' (S i) s'
    end
  end.

(** ** The data handed over by [load_data]: [(read_data, flag, warnings)] *)

Definition loaded : Type := list row * bool * list string.

Definition read_data (d : loaded) : list row := d.1.1.

(** ** [find_student_ids] *)

Definition identifier : string := "FitNZ".

(** The body of the loop of [find_student_ids] for one [student].
    [identifier in student[3]] raises [TypeError] when the cell is [None]. *)
Definition find_student_ids_body (student : row) (missing_students : list row)
    : result (list row) :=
  let* data := getitem student 3 in
  match data with
  | VNone => Raise TypeError
  | VStr s =>
    if str_contains identifier s then
      let location := str_find s identifier in
      let student_id := str_slice s location (location + 9) in
      let* id := getitem student 0 in
      if bool_decide (VStr student_id ≠ id) then
        let* first := getitem student 1 in
        let* last := getitem student 2 in
        Ok (missing_students ++ [[id; first; last]])
      else Ok missing_students
    else
      let* id := getitem student 0 in
      let* first := getitem student 1 in
      let* last := getitem student 2 in
      Ok (missing_students ++ [[id; first; last]])
  end.

Definition find_student_ids (student_data : loaded) : result (list row) :=
  let rows := read_data student_data in
  while_index find_student_ids_body rows (length rows) 0 [].

(** ** [find_tutors] *)

(** The [for item in st_data] loop of the matched path: at the first row
    whose [item[0]] equals [student[0]], compare the matched roster name
    with [item[4]], flag the student when they differ, and [break]. *)
Fixpoint compare_pairing (tutor_name : value) (student : row)
    (st_data : list row) (missing_tutors : list row) : result (list row) :=
  match st_data with
  | [] => Ok missing_tutors
  | item :: st_data' =>
    let* pk := getitem item 0 in
    let* id := getitem student 0 in
    if bool_decide (pk = id) then
      let* tutor := getitem item 4 in
      if bool_decide (tutor_name ≠ tutor) then
        let* first := getitem student 1 in
        let* last := getitem student 2 in
        Ok (missing_tutors ++ [[id; first; last; tutor]])
      else Ok missing_tutors
    else compare_pairing tutor_name student st_data' missing_tutors
  end.

(** [while j < len(tutor_names) and not tutor_found]: the state is
    [(tutor_found, missing_tutors)]; [j] moves on only after a miss. *)
Fixpoint scan_tutors (tutor_names : list value) (st_data : list row)
    (student : row) (fuel j : nat) (tutor_found : bool)
    (missing_tutors : list row) : result (bool * list row) :=
  match tutor_names !! j with
  | None => Ok (tutor_found, missing_tutors)
  | Some tutor_name =>
    if tutor_found then Ok (tutor_found, missing_tutors)
    else
      match fuel with
      | 0 => Loop
      | S fuel' =>
        let* data := getitem student 3 in
        let* found := py_in tutor_name data in
        if found then
          let* missing_tutors' :=
            compare_pairing tutor_name student st_data missing_tutors in
          scan_tutors tutor_names st_data student fuel' j true missing_tutors'
        else
          scan_tutors tutor_names st_data student fuel' (S j) false
            missing_tutors
      end
  end.

(** The [for item in st_data] loop of the unmatched path: [tutor] starts
    as [''] and takes [item[4]] of the first row of the student. *)
Fixpoint lookup_tutor (student : row) (st_data : list row) : result value :=
  match st_data with
  | [] => Ok (VStr "")
  | item :: st_data' =>
    let* pk := getitem item 0 in
    let* id := getitem student 0 in
    if bool_decide (pk = id) then getitem item 4
    else lookup_tutor student st_data'
  end.

(** The body of the outer loop of [find_tutors] for one [student]. *)
Definition find_tutors_body (tutor_names : list value) (st_data : list row)
    (student : row) (missing_tutors : list row) : result (list row) :=
  let* scanned :=
    scan_tutors tutor_names st_data student (length tutor_names) 0 false
      missing_tutors in
  if negb scanned.1 then
    let* tutor := lookup_tutor student st_data in
    let* id := getitem student 0 in
    let* first := getitem student 1 in
    let* last := getitem student 2 in
    Ok (scanned.2 ++ [[id; first; last; tutor]])
  else Ok scanned.2.

Definition find_tutors (student_data : loaded) (tutor_names : list value)
    (st_data : list row) : result (list row) :=
  let rows := read_data student_data in
  while_index (find_tutors_body tutor_names st_data) rows (length rows) 0 [].

(** ** The field validators *)

(** What a validator hands back: the calls it made to the error-log sink
    [ft.process_error_log(errors, title)], and its return value
    [(flag, warnings)]. *)
Record validation : Type := Validation {
  error_log : list (list string * string);
  has_warnings : bool;
  warnings : list string
}.

(** The escape [\n] of the Python literals. *)
Definition newline : string := String (ascii_of_nat 10) "".

(** The loop body of [check_fields_data]; the state is [(errors, warnings)]. *)
Definition check_fields_step (student : row) (st : list string * list string)
    : result (list string * list string) :=
  let '(errors, warnings) := st in
  let* first := getitem student 1 in
  let* warnings :=
    if blank first then
      let* id := getitem student 0 in
      Ok (warnings ++ ["First Name is missing for student with Student ID "
                       +:+ py_str id])
    else Ok warnings in
  let* last := getitem student 2 in
  let* warnings :=
    if blank last then
      let* id := getitem student 0 in
      Ok (warnings ++ ["Last Name is missing for student with Student ID "
                       +:+ py_str id])
    else Ok warnings in
  let* data := getitem student 3 in
  let* errors :=
    if blank data then
      let* id := getitem student 0 in
      Ok (errors ++ ["Data is missing for student with Student ID "
                     +:+ py_str id])
    else Ok errors in
  Ok (errors, warnings).

(** [for student in report_data: <step>]. *)
Fixpoint for_each {A St : Type} (step : A → St → result St)
    (xs : list A) (s : St) : result St :=
  match xs with
  | [] => Ok s
  | x :: xs' => let* s' := step x s in for_each step xs' s'
  end.

(** The tail shared by both validators: log the errors if there are any,
    and report whether a warning was added after the title. *)
Definition finish_check (title : string) (st : list string * list string)
    : validation :=
  let '(errors, warnings) := st in
  {| error_log := if bool_decide (0 < length errors) then [(errors, title)]
                  else [];
     has_warnings := bool_decide (1 < length warnings);
     warnings := warnings |}.

Definition check_fields_data (report_data : list row) : result validation :=
  let errors := [] in
  let warnings := [newline +:+ "Student Profile Fields Report Warnings:"
                   +:+ newline] in
  let* st := for_each check_fields_step report_data (errors, warnings) in
  Ok (finish_check "Student Profile Fields Report" st).

(** The loop body of [check_s_t]. *)
Definition check_s_t_step (student : row) (st : list string * list string)
    : result (list string * list string) :=
  let '(errors, warnings) := st in
  let* first := getitem student 1 in
  let* warnings :=
    if blank first then
      let* id := getitem student 0 in
      Ok (warnings ++ ["First Name is missing for student with Student ID "
                       +:+ py_str id])
    else Ok warnings in
  let* last := getitem student 2 in
  let* warnings :=
    if blank last then
      let* id := getitem student 0 in
      Ok (warnings ++ ["Last Name is missing for student with Student ID "
                       +:+ py_str id])
    else Ok warnings in
  let* course := getitem student 3 in
  let* warnings :=
    if blank course then
      let* id := getitem student 0 in
      Ok (warnings ++ ["Course is missing for student with Student ID "
                       +:+ py_str id])
    else Ok warnings in
  let* tutor := getitem student 4 in
  let* errors :=
    if blank tutor then
      let* id := getitem student 0 in
      Ok (errors ++ ["Tutor is missing for student with Student ID "
                     +:+ py_str id])
    else Ok errors in
  Ok (errors, warnings).

Definition check_s_t (report_data : list row) : result validation :=
  let errors := [] in
  let warnings := [newline +:+ "Students Tutors data Warnings:"
                   +:+ newline] in
  let* st := for_each check_s_t_step report_data (errors, warnings) in
  Ok (finish_check "Student Tutors Data" st).


(** ** [extract_items] and [extract_tutors] *)

(** [extract_items]: the loop appends [st_data[0][i]] for every [i]. *)
Definition extract_items (st_data : loaded) : result (list row) :=
  let rows := read_data st_data in
  while_index
    (λ student extracted_lists, Ok (extracted_lists ++ [student]))
    rows (length rows) 0 [].

(** [extract_tutors]: the loop appends [item[0]] of every row. *)
Definition extract_tutors (tutor_data : loaded) : result (list value) :=
  let rows := read_data tutor_data in
  while_index
    (λ item extracted_tutors,
       let* tutor := getitem item 0 in Ok (extracted_tutors ++ [tutor]))
    rows (length rows) 0 [].

(** ** [load_data], from the opened file on *)

(** The body of [for row in reader]: a row is kept when its first cell
    is not blank. *)
Definition load_data_step (line : row) (read_data : list row)
    : result (list row) :=
  let* key := getitem line 0 in
  if negb (blank key) then Ok (read_data ++ [line]) else Ok read_data.

(** [load_data] once [open] has succeeded.  [reader] is the list of rows
    that [csv.reader] yields from the file after its header line; the
    prompt for another file name, which runs while [open] fails, is not
    part of the model.  The result pairs the returned tuple with the
    calls made to the error-log sink; the value the validator returns is
    dropped, as in the source, and [warnings] is never appended to. *)
Definition load_data (reader : list row) (source : string)
    : result (loaded * list (list string * string)) :=
  let read_data := [] in
  let warnings := [] in
  let* read_data := for_each load_data_step reader read_data in
  let* logged :=
    if bool_decide (source = "fields_data") then
      let* v := check_fields_data read_data in Ok (error_log v)
    else if bool_decide (source = "students_tutors") then
      let* v := check_s_t read_data in Ok (error_log v)
    else Ok [] in
  if bool_decide (0 < length warnings)
  then Ok ((read_data, true, warnings), logged)
  else Ok ((read_data, false, warnings), logged).

(** ** The two menu actions, from the opened files on *)

(** What a menu action produces: the calls made to the error-log sink,
    and the [headings] and rows it hands to [save_students]. *)
Record saved : Type := Saved {
  logged_errors : list (list string * string);
  save_headings : list string;
  save_rows : list row
}.

(** The data path of [process_student_ids]; [fields] is what
    [csv.reader] yields for the profile fields file.  Prompts, prints
    and the file names are not part of the model. *)
Definition process_student_ids (fields : list row) : result saved :=
  let* loaded_fields := load_data fields "fields_data" in
  let student_data := loaded_fields.1 in
  let* missing_students := find_student_ids student_data in
  let headings := ["Student ID"; "First Name"; "Last Name"] in
  Ok {| logged_errors := loaded_fields.2;
        save_headings := headings;
        save_rows := missing_students |}.

(** The data path of [process_tutor_names]; [fields], [tutors] and
    [pairings] are what [csv.reader] yields for the three files, in the
    order the source loads them. *)
Definition process_tutor_names (fields tutors pairings : list row)
    : result saved :=
  let* loaded_fields := load_data fields "fields_data" in
  let student_data := loaded_fields.1 in
  let* loaded_tutors := load_data tutors "tutor_names" in
  let tutor_data := loaded_tutors.1 in
  let* tutors := extract_tutors tutor_data in
  let* loaded_st := load_data pairings "studentstutors.csv" in
  let st_data := loaded_st.1 in
  let* st_data := extract_items st_data in
  let* missing_tutors := find_tutors student_data tutors st_data in
  let headings := ["Student ID"; "First Name"; "Last Name"; "Tutor"] in
  Ok {| logged_errors :=
          loaded_fields.2 ++ loaded_tutors.2 ++ loaded_st.2;
        save_headings := headings;
        save_rows := missing_tutors |}.

(** The messages one record adds to the lists of [check_s_t]. *)
Definition tutor_errors (student : row) : list string :=
  if blank (nth 4 student VNone)
  then ["Tutor is missing for student with Student ID "
        +:+ py_str (nth 0 student VNone)]
  else [].

Definition s_t_warnings (student : row) : list string :=
  (if blank (nth 1 student VNone)
   then ["First Name is missing for student with Student ID "
         +:+ py_str (nth 0 student VNone)]
   else [])
  ++
  (if blank (nth 2 student VNone)
   then ["Last Name is missing for student with Student ID "
         +:+ py_str (nth 0 student VNone)]
   else [])
  ++
  (if blank (nth 3 student VNone)
   then ["Course is missing for student with Student ID "
         +:+ py_str (nth 0 student VNone)]
   else []).

(** A row [load_data] keeps: its first cell is there and not blank. *)
Definition has_key (line : row) : bool :=
  match line with
  | [] => false
  | key :: _ => negb (blank key)
  end.

(** ** Per-record view of the loops *)

(** The outputs of [f] on each element, concatenated in list order; the
    first element on which [f] fails decides the failure. *)
Fixpoint collect {A B : Type} (f : A → result (list B)) (xs : list A)
    : result (list B) :=
  match xs with
  | [] => Ok []
  | x :: xs' =>
    let* out := f x in
    let* outs := collect f xs' in
    Ok (out ++ outs)
  end.

(** A loop body only appends to its accumulator. *)
Definition appends {A B : Type} (body : A → list B → result (list B))
    : Prop :=
  ∀ x acc, body x acc = let* out := body x [] in Ok (acc ++ out).

(** The entries [find_student_ids] adds for one record. *)
Definition id_entries (student : row) : result (list row) :=
  find_student_ids_body student [].

(** The entries [find_tutors] adds for one record. *)
Definition tutor_entries (tutor_names : list value) (st_data : list row)
    (student : row) : result (list row) :=
  find_tutors_body tutor_names st_data student [].

(** The first pairing row whose [StudentPK] cell is [id]. *)
Definition pairing_row (id : value) (st_data : list row) : option row :=
  snd <$> list_find (λ item, item !! 0 = Some id) st_data.

(** A cell that holds a [str]. *)
Definition is_str (x : value) : Prop := ∃ s, x = VStr s.

(** A roster name that is a [str] and does not occur in the field [d]. *)
Definition absent_from (d : string) (tutor_name : value) : Prop :=
  ∃ n, tutor_name = VStr n ∧ str_contains n d = false.

(** A roster name that is a [str] and occurs in the field [d]. *)
Definition occurs_in (d : string) (tutor_name : value) : Prop :=
  ∃ n, tutor_name = VStr n ∧ str_contains n d = true.

(** A profile row as the checks need it: four cells or more, the data
    cell a [str]. *)
Definition profile_row (student : row) : Prop :=
  ∃ id first last d extra, student = id :: first :: last :: VStr d :: extra.

(** The messages one record adds to the lists of [check_fields_data]. *)
Definition data_errors (student : row) : list string :=
  if blank (nth 3 student VNone)
  then ["Data is missing for student with Student ID "
        +:+ py_str (nth 0 student VNone)]
  else [].

Definition name_warnings (student : row) : list string :=
  (if blank (nth 1 student VNone)
   then ["First Name is missing for student with Student ID "
         +:+ py_str (nth 0 student VNone)]
   else [])
  ++
  (if blank (nth 2 student VNone)
   then ["Last Name is missing for student with Student ID "
         +:+ py_str (nth 0 student VNone)]
   else []).

(** * Proofs *)

(** ** The result monad *)

Section Monad.
Context {A B C : Type}.

Lemma bind_Ok_inv (m : result A) (k : A → result B) (b : B) :
  bind m k = Ok b → ∃ a, m = Ok a ∧ k a = Ok b.
Proof. destruct m as [a| |]; simpl; [eauto | discriminate..]. Qed.

Lemma bind_assoc (m : result A) (k : A → result B) (h : B → result C) :
  bind (bind m k) h = bind m (λ a, bind (k a) h).
Proof. by destruct m. Qed.

Lemma bind_ext (m : result A) (k k' : A → result B) :
  (∀ a, k a = k' a) → bind m k = bind m k'.
Proof. intros E. destruct m; simpl; auto. Qed.

Lemma bind_Ok_r (m : result A) : bind m Ok = m.
Proof. by destruct m. Qed.
End Monad.

(** ** Index loops are list traversals *)

Section Loops.
Context {A St : Type} (body : A → St → result St).

Lemma while_index_for_each (xs : list A) (fuel i : nat) (s : St) :
  length xs ≤ fuel + i →
  while_index body xs fuel i s = for_each body (drop i xs) s.
Proof.
  revert i s. induction fuel as [|fuel IH]; intros i s Hlen; simpl.
  - rewrite lookup_ge_None_2, drop_ge by lia. done.
  - destruct (xs !! i) as [x|] eqn:Hx.
    + rewrite (drop_S _ _ _ Hx). simpl. apply bind_ext. intros s'.
      apply IH. lia.
    + apply lookup_ge_None_1 in Hx. by rewrite drop_ge.
Qed.

Lemma while_index_all (xs : list A) (s : St) :
  while_index body xs (length xs) 0 s = for_each body xs s.
Proof. rewrite while_index_for_each by lia. by rewrite drop_0. Qed.

Lemma for_each_app (xs ys : list A) (s : St) :
  for_each body (xs ++ ys) s =
  let* s' := for_each body xs s in for_each body ys s'.
Proof.
  revert s. induction xs as [|x xs IH]; intros s; simpl; [done|].
  rewrite bind_assoc. apply bind_ext. intros s'. apply IH.
Qed.
End Loops.

Section Collect.
Context {A B : Type} (body : A → list B → result (list B)).
Hypothesis body_appends : appends body.

Lemma for_each_collect (xs : list A) (acc : list B) :
  for_each body xs acc =
  let* out := collect (λ x, body x []) xs in Ok (acc ++ out).
Proof.
  revert acc. induction xs as [|x xs IH]; intros acc; simpl.
  - by rewrite app_nil_r.
  - rewrite body_appends, !bind_assoc. apply bind_ext. intros out. simpl.
    rewrite IH, !bind_assoc. apply bind_ext. intros outs. simpl.
    by rewrite app_assoc.
Qed.
End Collect.

Section CollectFacts.
Context {A B : Type} (f : A → result (list B)).

Lemma collect_app (xs ys : list A) :
  collect f (xs ++ ys) =
  let* a := collect f xs in let* c := collect f ys in Ok (a ++ c).
Proof.
  induction xs as [|x xs IH]; simpl.
  - by rewrite bind_Ok_r.
  - rewrite !bind_assoc. apply bind_ext. intros out. simpl.
    rewrite IH, !bind_assoc. apply bind_ext. intros a. simpl.
    rewrite !bind_assoc. apply bind_ext. intros c. simpl.
    by rewrite app_assoc.
Qed.

(** A record in the middle of the input adds its entries between those
    of the records before it and those of the records after it. *)
Lemma collect_insert (xs ys : list A) (x : A) :
  collect f (xs ++ x :: ys) =
  let* a := collect f xs in
  let* out := f x in
  let* c := collect f ys in
  Ok (a ++ out ++ c).
Proof.
  rewrite collect_app. apply bind_ext. intros a. simpl.
  rewrite !bind_assoc. apply bind_ext. intros out. simpl.
  by rewrite bind_assoc.
Qed.

Lemma collect_middle (xs ys : list A) (x : A) (out : list B) :
  f x = Ok out →
  collect f (xs ++ x :: ys) =
  let* a := collect f xs in let* c := collect f ys in Ok (a ++ out ++ c).
Proof.
  intros Hx. rewrite collect_insert. apply bind_ext. intros a.
  by rewrite Hx.
Qed.

Lemma collect_one (x : A) : collect f [x] = f x.
Proof.
  simpl. rewrite <- (bind_Ok_r (f x)) at 2. apply bind_ext.
  intros out. simpl. by rewrite app_nil_r.
Qed.

Lemma collect_total (xs : list A) :
  Forall (λ x, ∃ out, f x = Ok out) xs → ∃ outs, collect f xs = Ok outs.
Proof.
  induction 1 as [|x xs [out Hx] _ [outs IH]]; simpl; [by eexists|].
  rewrite Hx, IH. by eexists.
Qed.
End CollectFacts.

(** ** Strings: [find], [in] and slices *)

Section Strings.
Implicit Types s t u v sub : string.

Lemma substring_clip s p m :
  String.length s - p ≤ m →
  String.substring p m s = String.substring p (String.length s - p) s.
Proof.
  revert p m. induction s as [|c s IH]; intros p m Hm.
  - by destruct p, m.
  - destruct p as [|p]; simpl in *.
    + destruct m as [|m]; [lia|]. f_equal.
      rewrite (IH 0 m) by lia. by rewrite Nat.sub_0_r.
    + by apply IH.
Qed.

Lemma slice_bound_inside len p :
  p ≤ len → slice_bound len (Z.of_nat p) = p.
Proof.
  intros Hp. unfold slice_bound.
  destruct (Z.ltb_spec (Z.of_nat p) 0); [lia|].
  rewrite Nat2Z.id. lia.
Qed.

(** The nine-character slice taken at a position inside the field. *)
Lemma str_slice_9 s p :
  p ≤ String.length s →
  str_slice s (Z.of_nat p) (Z.of_nat p + 9) = String.substring p 9 s.
Proof.
  intros Hp. unfold str_slice. cbv zeta.
  rewrite (slice_bound_inside _ _ Hp). unfold slice_bound.
  destruct (Z.ltb_spec (Z.of_nat p + 9) 0); [lia|].
  replace (Z.to_nat (Z.of_nat p + 9)) with (p + 9) by lia.
  destruct (Nat.le_gt_cases (p + 9) (String.length s)).
  - rewrite Nat.min_l by lia. f_equal. lia.
  - rewrite Nat.min_r by lia. symmetry. apply substring_clip. lia.
Qed.

Lemma substring_skip u s m :
  String.substring (String.length u) m (u +:+ s) = String.substring 0 m s.
Proof. induction u as [|c u IH]; simpl; [done | apply IH]. Qed.

Lemma substring_whole s t :
  String.substring 0 (String.length s) (s +:+ t) = s.
Proof.
  induction s as [|c s IH]; simpl; [by destruct t | by rewrite IH].
Qed.

Lemma prefix_app s t : String.prefix s (s +:+ t) = true.
Proof. apply String.prefix_correct, substring_whole. Qed.

Lemma prefix_split s t :
  String.prefix s t = true → ∃ r, t = s +:+ r.
Proof.
  revert t. induction s as [|c s IH]; intros t H; [by exists t|].
  destruct t as [|c' t]; simpl in H; [discriminate|].
  destruct (ascii_dec c c') as [->|]; [|discriminate].
  destruct (IH _ H) as [r ->]. by exists r.
Qed.

Lemma length_append s t :
  String.length (s +:+ t) = String.length s + String.length t.
Proof. induction s as [|c s IH]; simpl; [done | by rewrite IH]. Qed.

Lemma append_cons c s t : String c s +:+ t = String c (s +:+ t).
Proof. reflexivity. Qed.

Lemma append_assoc s t u : (s +:+ t) +:+ u = s +:+ t +:+ u.
Proof.
  induction s as [|c s IH]; [done|]. by rewrite !append_cons, IH.
Qed.

Lemma index_0_cons sub c s :
  String.index 0 sub (String c s) =
  if String.prefix sub (String c s) then Some 0
  else S <$> String.index 0 sub s.
Proof.
  change (String.index 0 sub (String c s)) with
    (if String.prefix sub (String c s) then Some 0
     else match String.index 0 sub s with
          | Some n => Some (S n)
          | None => None
          end).
  destruct (String.prefix sub (String c s)); [done|].
  by destruct (String.index 0 sub s).
Qed.

Lemma index_0_prefix sub s :
  String.prefix sub s = true → String.index 0 sub s = Some 0.
Proof.
  intros H. destruct s as [|c s].
  - destruct sub; [done | discriminate].
  - by rewrite index_0_cons, H.
Qed.

(** [in] on strings finds exactly the strings that have [sub] inside. *)
Lemma str_contains_spec sub s :
  str_contains sub s = true ↔ ∃ u v, s = u +:+ sub +:+ v.
Proof.
  unfold str_contains. split.
  - induction s as [|c s IH].
    + destruct sub; simpl; [|discriminate]. intros _. by exists "", "".
    + rewrite index_0_cons.
      destruct (String.prefix sub (String c s)) eqn:Hp.
      * intros _. destruct (prefix_split _ _ Hp) as [r ->]. by exists "", r.
      * destruct (String.index 0 sub s); [|discriminate]. intros _.
        destruct IH as (u & v & ->); [done|]. by exists (String c u), v.
  - intros (u & v & ->). induction u as [|c u IH].
    + change ("" +:+ sub +:+ v) with (sub +:+ v).
      by rewrite (index_0_prefix _ _ (prefix_app sub v)).
    + rewrite append_cons, index_0_cons. destruct (String.prefix _ _); [done|].
      by destruct (String.index 0 sub (u +:+ sub +:+ v)).
Qed.
End Strings.

(** ** The marker and its first occurrence *)

Section Marker.
Implicit Types d pre rest u : string.

(** No proper suffix of the marker starts the marker again, so an
    occurrence that begins inside [u] lies inside [u] entirely. *)
Lemma identifier_no_overlap u rest :
  u ≠ "" →
  String.prefix identifier (u +:+ identifier +:+ rest) = true →
  String.prefix identifier u = true.
Proof.
  intros Hne H. apply String.prefix_correct in H.
  apply String.prefix_correct. unfold identifier in *.
  destruct u as [|c0 [|c1 [|c2 [|c3 [|c4 u]]]]]; [done|..];
    rewrite ?append_cons in H; cbn in H |- *; try discriminate H.
  injection H as -> -> -> -> -> _. by destruct u.
Qed.

Lemma index_not_in_cons sub c s :
  String.index 0 sub (String c s) = None →
  String.prefix sub (String c s) = false ∧ String.index 0 sub s = None.
Proof.
  rewrite index_0_cons. destruct (String.prefix _ _); [discriminate|].
  by destruct (String.index 0 sub s).
Qed.

Lemma index_first pre rest :
  String.index 0 identifier pre = None →
  String.index 0 identifier (pre +:+ identifier +:+ rest)
  = Some (String.length pre).
Proof.
  induction pre as [|c pre IH]; intros Hpre.
  - change ("" +:+ identifier +:+ rest) with (identifier +:+ rest).
    apply index_0_prefix, prefix_app.
  - apply index_not_in_cons in Hpre as [Hp Hi].
    rewrite append_cons, index_0_cons.
    destruct (String.prefix identifier (String c (pre +:+ _))) eqn:E.
    + rewrite <- append_cons in E.
      apply identifier_no_overlap in E; [congruence | done].
    + by rewrite (IH Hi).
Qed.

Lemma str_contains_false sub s :
  str_contains sub s = false ↔ String.index 0 sub s = None.
Proof. unfold str_contains. by destruct (String.index 0 sub s). Qed.

Lemma str_find_first pre rest :
  str_contains identifier pre = false →
  str_find (pre +:+ identifier +:+ rest) identifier
  = Z.of_nat (String.length pre)
  ∧ str_contains identifier (pre +:+ identifier +:+ rest) = true.
Proof.
  intros H%str_contains_false. unfold str_find, str_contains.
  by rewrite (index_first _ rest H).
Qed.

(** The slice the check compares: nine characters from the first
    occurrence of the marker. *)
Lemma str_slice_first pre rest :
  str_slice (pre +:+ identifier +:+ rest)
    (Z.of_nat (String.length pre)) (Z.of_nat (String.length pre) + 9)
  = String.substring 0 9 (identifier +:+ rest).
Proof.
  rewrite str_slice_9 by (rewrite length_append; lia).
  apply substring_skip.
Qed.
End Marker.

(** ** [find_student_ids], record by record *)

Section StudentIds.
Implicit Types (student : row) (id first last : value) (d : string).

Lemma find_student_ids_body_appends : appends find_student_ids_body.
Proof.
  intros student acc. unfold find_student_ids_body.
  destruct (getitem student 3) as [[|d]| |]; simpl; try done.
  destruct (str_contains identifier d); simpl.
  - destruct (getitem student 0) as [id| |]; simpl; try done.
    case_bool_decide; simpl; [|by rewrite app_nil_r].
    destruct (getitem student 1) as [first| |]; simpl; try done.
    by destruct (getitem student 2) as [last| |].
  - destruct (getitem student 0) as [id| |]; simpl; try done.
    destruct (getitem student 1) as [first| |]; simpl; try done.
    by destruct (getitem student 2) as [last| |].
Qed.

(** The output is the concatenation, in input order, of what each
    record adds. *)
Lemma find_student_ids_collect (rows : list row) flag ws :
  find_student_ids (rows, flag, ws) = collect id_entries rows.
Proof.
  unfold find_student_ids, read_data. cbn [fst].
  rewrite while_index_all.
  rewrite (for_each_collect _ find_student_ids_body_appends).
  apply bind_Ok_r.
Qed.

Lemma find_student_ids_middle (l1 l2 : list row) student out flag ws :
  id_entries student = Ok out →
  find_student_ids (l1 ++ student :: l2, flag, ws) =
  let* a := find_student_ids (l1, flag, ws) in
  let* c := find_student_ids (l2, flag, ws) in
  Ok (a ++ out ++ c).
Proof.
  intros H. rewrite !find_student_ids_collect.
  by apply collect_middle.
Qed.

(** Marker found: the record is flagged exactly when the slice at the
    first occurrence differs from the [studentId] cell. *)
Lemma id_entries_marker id first last extra pre rest :
  str_contains identifier pre = false →
  id_entries (id :: first :: last
              :: VStr (pre +:+ identifier +:+ rest) :: extra)
  = Ok (if bool_decide
             (VStr (String.substring 0 9 (identifier +:+ rest)) ≠ id)
        then [[id; first; last]] else []).
Proof.
  intros Hpre. destruct (str_find_first pre rest Hpre) as [Hf Hc].
  unfold id_entries, find_student_ids_body.
cbn [getitem lookup list_lookup bind].
  rewrite Hc, Hf, str_slice_first. cbn.
  by case_bool_decide.
Qed.

(** Marker absent: the record is flagged. *)
Lemma id_entries_no_marker id first last extra d :
  str_contains identifier d = false →
  id_entries (id :: first :: last :: VStr d :: extra)
  = Ok [[id; first; last]].
Proof.
  intros Hd. unfold id_entries, find_student_ids_body.
  cbn [getitem lookup list_lookup bind]. by rewrite Hd.
Qed.
End StudentIds.

(** ** The identifier check *)

Section IdentifierCheck.
Implicit Types (above below : list row) (flag : bool) (ws : list string).
Implicit Types (id first last : value) (extra : row).
Implicit Types (sid pre post rest : string).

Lemma substring_all s m :
  String.length s ≤ m → String.substring 0 m s = s.
Proof.
  revert m. induction s as [|c s IH]; intros m Hm; [by destruct m|].
  destruct m as [|m]; simpl in *; [lia|]. rewrite IH; [done | lia].
Qed.

(** C1, as the spec words it, fails: a field that holds the marker
    followed by the student's id is flagged, both for a four-character
    id and for a nine-character id that itself starts with the marker.
    The slice taken at the marker is nine characters long and begins
    with the marker, so it is not the id that follows the marker. *)
Lemma marker_then_id_is_flagged :
  find_student_ids
    ([[VStr "1234"; VStr "Ann"; VStr "Lee";
       VStr (identifier +:+ "1234")]], false, [])
  = Ok [[VStr "1234"; VStr "Ann"; VStr "Lee"]]
  ∧
  find_student_ids
    ([[VStr "FitNZ1234"; VStr "Ann"; VStr "Lee";
       VStr (identifier +:+ "FitNZ1234")]], false, [])
  = Ok [[VStr "FitNZ1234"; VStr "Ann"; VStr "Lee"]].
Proof. split; reflexivity. Qed.

(** The check at work on a record whose field has its first marker
    after [pre]: it takes the nine characters from that marker on and
    flags the record exactly when they differ from the [studentId]. *)
Lemma find_student_ids_marker above below flag ws id first last extra
    pre rest :
  str_contains identifier pre = false →
  find_student_ids
    (above ++ (id :: first :: last
            :: VStr (pre +:+ identifier +:+ rest) :: extra) :: below, flag, ws)
  = let* a := find_student_ids (above, flag, ws) in
    let* c := find_student_ids (below, flag, ws) in
    Ok (a ++ (if bool_decide
                   (id = VStr (String.substring 0 9 (identifier +:+ rest)))
              then [] else [[id; first; last]]) ++ c).
Proof.
  intros Hpre. apply find_student_ids_middle.
  rewrite (id_entries_marker _ _ _ _ _ _ Hpre).
  destruct (decide (id = VStr (String.substring 0 9 (identifier +:+ rest))))
    as [->|Hne].
  - rewrite bool_decide_false by (intros H; by apply H).
    by rewrite bool_decide_true.
  - rewrite bool_decide_true by congruence.
    by rewrite bool_decide_false.
Qed.

(** C1 (amended): the check takes the nine characters that start at the
    first marker of the field and compares them with [studentId]; so a
    record whose [studentId] is nine characters long and begins with the
    marker, and whose [dataField] holds that [studentId] with no marker
    before it, adds nothing to the missing-identifier output, wherever
    it stands in the input. *)
Theorem exact_match_not_flagged above below flag ws first last extra pre :
  str_contains identifier pre = false →
  (∀ id rest,
     find_student_ids
       (above ++ (id :: first :: last
               :: VStr (pre +:+ identifier +:+ rest) :: extra) :: below,
        flag, ws)
     = let* a := find_student_ids (above, flag, ws) in
       let* c := find_student_ids (below, flag, ws) in
       Ok (a ++ (if bool_decide
                      (id = VStr (String.substring 0 9
                                    (identifier +:+ rest)))
                 then [] else [[id; first; last]]) ++ c))
  ∧
  (∀ sid post,
     String.length sid = 9 →
     String.prefix identifier sid = true →
     find_student_ids
       (above ++ (VStr sid :: first :: last
               :: VStr (pre +:+ sid +:+ post) :: extra) :: below, flag, ws)
     = let* a := find_student_ids (above, flag, ws) in
       let* c := find_student_ids (below, flag, ws) in
       Ok (a ++ c)).
Proof.
  intros Hpre. split.
  - intros id rest. by apply find_student_ids_marker.
  - intros sid post Hlen Hsid.
    destruct (prefix_split _ _ Hsid) as [r Hr].
    assert (Hcut : String.substring 0 9 (identifier +:+ r +:+ post) = sid).
    { rewrite <- append_assoc, <- Hr, <- Hlen. apply substring_whole. }
    rewrite Hr at 2. rewrite append_assoc.
    rewrite find_student_ids_marker, Hcut by done.
    by rewrite bool_decide_true.
Qed.

Lemma exact_match_not_flagged_witness :
  find_student_ids
    ([[VStr "S2"; VStr "Bo"; VStr "Tan"; VStr "no-token-here"]]
     ++ [VStr "FitNZ1234"; VStr "Ann"; VStr "Lee";
         VStr ("id: " +:+ "FitNZ1234" +:+ ", tutor Smith")]
        :: [], false, [])
  = let* a := find_student_ids
                ([[VStr "S2"; VStr "Bo"; VStr "Tan";
                   VStr "no-token-here"]], false, []) in
    let* c := find_student_ids ([], false, []) in
    Ok (a ++ c).
Proof.
  apply (proj2 (exact_match_not_flagged _ [] false [] (VStr "Ann")
                  (VStr "Lee") [] "id: " eq_refl)
           "FitNZ1234" ", tutor Smith"); reflexivity.
Defined.

(** C3, as the spec words it, fails: when the field ends less than
    nine characters after the marker, the slice is clipped, and a
    [studentId] equal to the clipped slice is accepted, not flagged. *)
Lemma short_field_can_match :
  find_student_ids
    ([[VStr "FitNZ12"; VStr "Bo"; VStr "Tan"; VStr "FitNZ12"]], false, [])
  = Ok [].
Proof. reflexivity. Qed.

(** C3 (amended): a record whose [dataField] ends less than nine
    characters after its first marker never makes the check raise; the
    slice is what is left of the field from the marker on, and the
    record is flagged unless its [studentId] is that clipped slice --
    which no [studentId] of nine or more characters is. *)
Theorem short_field_clipped above below flag ws id first last extra pre rest :
  str_contains identifier pre = false →
  String.length (identifier +:+ rest) < 9 →
  find_student_ids
    (above ++ (id :: first :: last
            :: VStr (pre +:+ identifier +:+ rest) :: extra) :: below, flag, ws)
  = (let* a := find_student_ids (above, flag, ws) in
     let* c := find_student_ids (below, flag, ws) in
     Ok (a ++ (if bool_decide (id = VStr (identifier +:+ rest)) then []
               else [[id; first; last]]) ++ c))
  ∧ ∀ sid, id = VStr sid → 9 ≤ String.length sid →
           id ≠ VStr (identifier +:+ rest).
Proof.
  intros Hpre Hshort. split.
  - rewrite find_student_ids_marker by done.
    by rewrite substring_all by lia.
  - intros sid -> Hsid [= ->]. lia.
Qed.

Lemma short_field_clipped_witness :
  find_student_ids
    ([] ++ [VStr "FitNZ1234"; VStr "Bo"; VStr "Tan";
            VStr ("id " +:+ identifier +:+ "12")] :: [], false, [])
  = Ok [[VStr "FitNZ1234"; VStr "Bo"; VStr "Tan"]].
Proof.
  exact (proj1 (short_field_clipped [] [] false [] (VStr "FitNZ1234")
                  (VStr "Bo") (VStr "Tan") [] "id " "12"
                  eq_refl ltac:(vm_compute; lia))).
Defined.

(** C10: only the first marker counts.  The record is compared with the
    nine characters at the first occurrence of the marker and with
    nothing else in the field: it is flagged exactly when that slice
    differs from [studentId].  So when the first slice differs, the
    record is flagged whatever follows in the field -- a later marker
    that starts an exact copy of [studentId] included. *)
Theorem first_marker_decides above below flag ws id first last extra pre rest :
  str_contains identifier pre = false →
  find_student_ids
    (above ++ (id :: first :: last
            :: VStr (pre +:+ identifier +:+ rest) :: extra) :: below, flag, ws)
  = (let* a := find_student_ids (above, flag, ws) in
     let* c := find_student_ids (below, flag, ws) in
     Ok (a ++ (if bool_decide
                    (id = VStr (String.substring 0 9 (identifier +:+ rest)))
               then [] else [[id; first; last]]) ++ c))
  ∧ (id ≠ VStr (String.substring 0 9 (identifier +:+ rest)) →
     find_student_ids
       (above ++ (id :: first :: last
               :: VStr (pre +:+ identifier +:+ rest) :: extra) :: below,
        flag, ws)
     = let* a := find_student_ids (above, flag, ws) in
       let* c := find_student_ids (below, flag, ws) in
       Ok (a ++ [id; first; last] :: c)).
Proof.
  intros Hpre. split.
  - by apply find_student_ids_marker.
  - intros Hne. rewrite find_student_ids_marker by done.
    by rewrite bool_decide_false.
Qed.

Lemma first_marker_decides_witness :
  find_student_ids
    ([] ++ [VStr "FitNZ1234"; VStr "Ann"; VStr "Lee";
            VStr ("old " +:+ identifier +:+ "0000, now FitNZ1234")]
        :: [], false, [])
  = Ok [[VStr "FitNZ1234"; VStr "Ann"; VStr "Lee"]]
  ∧
  find_student_ids
    ([] ++ [VStr "FitNZ0000"; VStr "Ann"; VStr "Lee";
            VStr ("old " +:+ identifier +:+ "0000, now FitNZ1234")]
        :: [], false, [])
  = Ok [].
Proof.
  split.
  - apply (proj2 (first_marker_decides [] [] false [] (VStr "FitNZ1234")
                    (VStr "Ann") (VStr "Lee") [] "old "
                    "0000, now FitNZ1234" eq_refl)).
    vm_compute. discriminate.
  - exact (proj1 (first_marker_decides [] [] false [] (VStr "FitNZ0000")
                    (VStr "Ann") (VStr "Lee") [] "old "
                    "0000, now FitNZ1234" eq_refl)).
Defined.
End IdentifierCheck.

(** ** [find_tutors], record by record *)

Section Tutors.
Implicit Types (tutor_names before after : list value).
Implicit Types (st_data : list row) (student item extra : row).
Implicit Types (id first last tutor tutor_name : value) (d a : string).

Lemma compare_pairing_acc tutor_name student st_data (acc : list row) :
  compare_pairing tutor_name student st_data acc =
  let* out := compare_pairing tutor_name student st_data [] in
  Ok (acc ++ out).
Proof.
  induction st_data as [|item st_data IH]; simpl.
  - by rewrite app_nil_r.
  - destruct (getitem item 0) as [pk| |]; simpl; try done.
    destruct (getitem student 0) as [id| |]; simpl; try done.
    case_bool_decide; [|done].
    destruct (getitem item 4) as [tutor| |]; simpl; try done.
    case_bool_decide; simpl; [|by rewrite app_nil_r].
    destruct (getitem student 1) as [first| |]; simpl; try done.
    by destruct (getitem student 2) as [last| |].
Qed.

(** Once the flag is set the scan stops where it stands. *)
Lemma scan_tutors_found tutor_names st_data student fuel j tutor_name
    (acc : list row) :
  tutor_names !! j = Some tutor_name →
  scan_tutors tutor_names st_data student fuel j true acc = Ok (true, acc).
Proof. intros H. destruct fuel; simpl; by rewrite H. Qed.

(** One turn of the scan at a roster position. *)
Lemma scan_tutors_step tutor_names st_data student fuel j tutor_name
    (acc : list row) :
  tutor_names !! j = Some tutor_name →
  scan_tutors tutor_names st_data student (S fuel) j false acc =
  let* data := getitem student 3 in
  let* found := py_in tutor_name data in
  if found then
    let* acc' := compare_pairing tutor_name student st_data acc in
    Ok (true, acc')
  else scan_tutors tutor_names st_data student fuel (S j) false acc.
Proof.
  intros H. simpl. rewrite H.
  apply bind_ext. intros data. apply bind_ext. intros [|]; [|done].
  apply bind_ext. intros acc'. by eapply scan_tutors_found.
Qed.

Lemma scan_tutors_end tutor_names st_data student fuel j found
    (acc : list row) :
  tutor_names !! j = None →
  scan_tutors tutor_names st_data student fuel j found acc
  = Ok (found, acc).
Proof. intros H. destruct fuel; simpl; by rewrite H. Qed.

Lemma scan_tutors_acc tutor_names st_data student fuel j (acc : list row) :
  scan_tutors tutor_names st_data student fuel j false acc =
  let* r := scan_tutors tutor_names st_data student fuel j false [] in
  Ok (r.1, acc ++ r.2).
Proof.
  revert j. induction fuel as [|fuel IH]; intros j.
  - simpl. destruct (tutor_names !! j); simpl; [done|].
    by rewrite app_nil_r.
  - destruct (tutor_names !! j) as [tutor_name|] eqn:Hj.
    + rewrite !(scan_tutors_step _ _ _ _ _ _ _ Hj), !bind_assoc.
      apply bind_ext. intros data. rewrite !bind_assoc.
      apply bind_ext. intros [|]; [|apply IH].
      rewrite compare_pairing_acc, !bind_assoc.
      apply bind_ext. intros out. done.
    + rewrite !scan_tutors_end by done. simpl. by rewrite app_nil_r.
Qed.

Lemma find_tutors_body_appends tutor_names st_data :
  appends (find_tutors_body tutor_names st_data).
Proof.
  intros student acc. unfold find_tutors_body.
  rewrite scan_tutors_acc, !bind_assoc.
  apply bind_ext. intros [found out]. simpl.
  destruct found; simpl; [done|].
  destruct (lookup_tutor student st_data) as [tutor| |]; simpl; try done.
  destruct (getitem student 0) as [id| |]; simpl; try done.
  destruct (getitem student 1) as [first| |]; simpl; try done.
  destruct (getitem student 2) as [last| |]; simpl; try done.
  by rewrite app_assoc.
Qed.

(** The output is the concatenation, in input order, of what each
    record adds. *)
Lemma find_tutors_collect (rows : list row) flag ws tutor_names st_data :
  find_tutors (rows, flag, ws) tutor_names st_data
  = collect (tutor_entries tutor_names st_data) rows.
Proof.
  unfold find_tutors, read_data. cbn [fst].
  rewrite while_index_all.
  rewrite (for_each_collect _ (find_tutors_body_appends _ _)).
  apply bind_Ok_r.
Qed.

Lemma find_tutors_middle (above below : list row) student out flag ws
    tutor_names st_data :
  tutor_entries tutor_names st_data student = Ok out →
  find_tutors (above ++ student :: below, flag, ws) tutor_names st_data =
  let* x := find_tutors (above, flag, ws) tutor_names st_data in
  let* c := find_tutors (below, flag, ws) tutor_names st_data in
  Ok (x ++ out ++ c).
Proof.
  intros H. rewrite !find_tutors_collect. by apply collect_middle.
Qed.

(** *** The roster scan *)

Lemma scan_tutors_skip tutor_names st_data student d before fuel j
    (acc : list row) :
  student !! 3 = Some (VStr d) →
  Forall (absent_from d) before →
  (∀ k, k < length before → tutor_names !! (j + k) = before !! k) →
  scan_tutors tutor_names st_data student (length before + fuel) j false acc
  = scan_tutors tutor_names st_data student fuel (j + length before)
      false acc.
Proof.
  intros Hd Habs. revert j.
  induction Habs as [|tutor_name before (n & -> & Hn) _ IH]; intros j Hj.
  - simpl. by rewrite Nat.add_0_r.
  - pose proof (Hj 0 ltac:(simpl; lia)) as H0.
    rewrite Nat.add_0_r in H0. simpl in H0.
    change (length (VStr n :: before) + fuel)
      with (S (length before + fuel)).
    rewrite (scan_tutors_step _ _ _ _ _ _ _ H0).
    unfold getitem. rewrite Hd. simpl. rewrite Hn.
    rewrite IH.
    + f_equal. simpl. lia.
    + intros k Hk. specialize (Hj (S k) ltac:(simpl; lia)).
      simpl in Hj. rewrite <- Hj. f_equal. lia.
Qed.

(** The first roster name found in the field ends the scan: the names
    listed after it are never looked at. *)
Lemma tutor_entries_first_match before a after st_data student d :
  student !! 3 = Some (VStr d) →
  Forall (absent_from d) before →
  str_contains a d = true →
  tutor_entries (before ++ VStr a :: after) st_data student
  = compare_pairing (VStr a) student st_data [].
Proof.
  intros Hd Habs Ha. unfold tutor_entries, find_tutors_body.
  rewrite length_app. cbn [length].
  rewrite (scan_tutors_skip _ _ _ d before) by
    (try done; intros k Hk; by rewrite lookup_app_l).
  rewrite (scan_tutors_step _ _ _ _ _ (VStr a)) by
    (by rewrite list_lookup_middle).
  unfold getitem. rewrite Hd. simpl. rewrite Ha.
  rewrite bind_assoc. rewrite <- (bind_Ok_r (compare_pairing _ _ _ _)) at 2.
  apply bind_ext. done.
Qed.

(** No roster name in the field: the student is flagged with the tutor
    looked up in the pairing table. *)
Lemma tutor_entries_no_match tutor_names st_data student d :
  student !! 3 = Some (VStr d) →
  Forall (absent_from d) tutor_names →
  tutor_entries tutor_names st_data student =
  let* tutor := lookup_tutor student st_data in
  let* id := getitem student 0 in
  let* first := getitem student 1 in
  let* last := getitem student 2 in
  Ok [[id; first; last; tutor]].
Proof.
  intros Hd Habs. unfold tutor_entries, find_tutors_body.
  rewrite <- (Nat.add_0_r (length tutor_names)).
  rewrite (scan_tutors_skip _ _ _ d tutor_names) by done.
  rewrite scan_tutors_end by (apply lookup_ge_None_2; simpl; lia).
  done.
Qed.
End Tutors.

(** ** The pairing table *)

Section Pairing.
Implicit Types (st_data : list row) (student item extra : row).
Implicit Types (id first last tutor tutor_name : value).

Lemma pairing_row_nil id : pairing_row id [] = None.
Proof. reflexivity. Qed.

Lemma pairing_row_cons id item st_data :
  pairing_row id (item :: st_data) =
  if decide (item !! 0 = Some id) then Some item
  else pairing_row id st_data.
Proof.
  unfold pairing_row. cbn [list_find]. case_decide; [done|].
  by destruct (list_find _ st_data) as [[k r]|].
Qed.

(** [pairing_row] is the first row of the student, and the rows before
    it belong to other students. *)
Lemma pairing_row_Some id st_data item :
  pairing_row id st_data = Some item →
  ∃ st1 st2, st_data = st1 ++ item :: st2 ∧ item !! 0 = Some id
             ∧ Forall (λ r, r !! 0 ≠ Some id) st1.
Proof.
  induction st_data as [|r st_data IH]; [done|].
  rewrite pairing_row_cons. case_decide as Hr.
  - intros [= ->]. by exists [], st_data.
  - intros (st1 & st2 & -> & H0 & H1)%IH.
    exists (r :: st1), st2. by repeat constructor.
Qed.

Lemma pairing_row_None id st_data :
  pairing_row id st_data = None ↔ Forall (λ r, r !! 0 ≠ Some id) st_data.
Proof.
  induction st_data as [|r st_data IH]; [done|].
  rewrite pairing_row_cons, Forall_cons. case_decide; [|tauto].
  split; [done | tauto].
Qed.

(** The comparison loop against the pairing table. *)
Lemma compare_pairing_spec tutor_name id first last extra st_data
    (acc : list row) :
  Forall (λ r, r ≠ []) st_data →
  compare_pairing tutor_name (id :: first :: last :: extra) st_data acc =
  match pairing_row id st_data with
  | Some item =>
    let* tutor := getitem item 4 in
    Ok (if bool_decide (tutor_name ≠ tutor)
        then acc ++ [[id; first; last; tutor]] else acc)
  | None => Ok acc
  end.
Proof.
  induction 1 as [|item st_data Hne _ IH]; [done|].
  rewrite pairing_row_cons. cbn [compare_pairing].
  destruct item as [|pk item]; [done|]. cbn [getitem lookup list_lookup bind].
  case_bool_decide as Hpk.
  - subst pk. rewrite decide_True by done.
    apply bind_ext. intros tutor. by case_bool_decide.
  - rewrite decide_False by congruence. apply IH.
Qed.

(** The lookup loop of the unmatched path. *)
Lemma lookup_tutor_spec id first last extra st_data :
  Forall (λ r, r ≠ []) st_data →
  lookup_tutor (id :: first :: last :: extra) st_data =
  match pairing_row id st_data with
  | Some item => getitem item 4
  | None => Ok (VStr "")
  end.
Proof.
  induction 1 as [|item st_data Hne _ IH]; [done|].
  rewrite pairing_row_cons. cbn [lookup_tutor].
  destruct item as [|pk item]; [done|]. cbn [getitem lookup list_lookup bind].
  case_bool_decide as Hpk.
  - subst pk. by rewrite decide_True.
  - rewrite decide_False by congruence. apply IH.
Qed.
End Pairing.

(** ** The tutor check *)

Section TutorCheck.
Implicit Types (above below : list row) (flag : bool) (ws : list string).
Implicit Types (tutor_names before after : list value).
Implicit Types (st_data : list row) (student item extra : row).
Implicit Types (id first last tutor : value) (d a : string).

(** C2: roster order decides.  When [a] is the first roster name that
    occurs in the record's [dataField], the scan stops there and the
    record adds to the output exactly what the comparison of [a] with
    the pairing table adds: nothing when the table has no row for the
    student or the row's tutor is [a], and otherwise one entry with the
    row's tutor.  The names listed after [a] play no part, whether they
    occur in the field or not, and whatever the pairing table says of
    them. *)
Theorem first_roster_name_wins above below flag ws d
    before a after st_data :
  Forall (absent_from d) before →
  str_contains a d = true →
  (∀ student,
     student !! 3 = Some (VStr d) →
     find_tutors (above ++ student :: below, flag, ws)
       (before ++ VStr a :: after) st_data
     = let* x := find_tutors (above, flag, ws)
                   (before ++ VStr a :: after) st_data in
       let* out := compare_pairing (VStr a) student st_data [] in
       let* c := find_tutors (below, flag, ws)
                   (before ++ VStr a :: after) st_data in
       Ok (x ++ out ++ c))
  ∧
  (∀ id first last extra,
     Forall (λ r, r ≠ []) st_data →
     find_tutors
       (above ++ (id :: first :: last :: VStr d :: extra) :: below, flag, ws)
       (before ++ VStr a :: after) st_data
     = let* x := find_tutors (above, flag, ws)
                   (before ++ VStr a :: after) st_data in
       let* out :=
         match pairing_row id st_data with
         | Some item =>
           let* tutor := getitem item 4 in
           Ok (if bool_decide (VStr a ≠ tutor)
               then [[id; first; last; tutor]] else [])
         | None => Ok []
         end in
       let* c := find_tutors (below, flag, ws)
                   (before ++ VStr a :: after) st_data in
       Ok (x ++ out ++ c)).
Proof.
  intros Habs Ha. split.
  - intros student Hd. rewrite !find_tutors_collect, collect_insert.
    by rewrite (tutor_entries_first_match _ _ _ _ _ _ Hd Habs Ha).
  - intros id first last extra Hst.
    rewrite !find_tutors_collect, collect_insert.
    rewrite (tutor_entries_first_match _ _ _ _ _ d); [|done..].
    by rewrite compare_pairing_spec.
Qed.

Lemma first_roster_name_wins_witness :
  find_tutors
    ([] ++ [VStr "S3"; VStr "Cy"; VStr "Roe"; VStr "Jones / Smith"]
        :: [], false, [])
    ([VStr "Brown"] ++ VStr "Smith" :: [VStr "Jones"])
    [[VStr "S3"; VStr "Cy"; VStr "Roe"; VStr "C1"; VStr "Jones"]]
  = Ok [[VStr "S3"; VStr "Cy"; VStr "Roe"; VStr "Jones"]]
  ∧
  find_tutors
    ([] ++ [VStr "S3"; VStr "Cy"; VStr "Roe"; VStr "Jones / Smith"]
        :: [], false, [])
    ([VStr "Brown"] ++ VStr "Smith" :: [VStr "Jones"])
    [[VStr "S3"; VStr "Cy"; VStr "Roe"; VStr "C1"; VStr "Smith"]]
  = Ok [].
Proof.
  assert (Habs : Forall (absent_from "Jones / Smith") [VStr "Brown"]).
  { repeat constructor. by exists "Brown". }
  split.
  - rewrite (proj2 (first_roster_name_wins [] [] false [] "Jones / Smith"
                      [VStr "Brown"] "Smith" [VStr "Jones"] _
                      Habs eq_refl)
               (VStr "S3") (VStr "Cy") (VStr "Roe") []).
    + reflexivity.
    + by repeat constructor.
  - rewrite (proj1 (first_roster_name_wins [] [] false [] "Jones / Smith"
                      [VStr "Brown"] "Smith" [VStr "Jones"] _
                      Habs eq_refl)
               [VStr "S3"; VStr "Cy"; VStr "Roe"; VStr "Jones / Smith"]).
    + reflexivity.
    + reflexivity.
Defined.

(** C4: a mismatch reports the pairing's tutor.  When the first roster
    name found in the field differs from the [Tutor] cell of the
    student's pairing row, the record adds one entry whose tutor cell
    is that of the pairing row, not the name found in the field. *)
Theorem mismatch_reports_pairing_tutor above below flag ws
    id first last extra d before a after st_data item tutor :
  Forall (absent_from d) before →
  str_contains a d = true →
  Forall (λ r, r ≠ []) st_data →
  pairing_row id st_data = Some item →
  item !! 4 = Some tutor →
  VStr a ≠ tutor →
  find_tutors
    (above ++ (id :: first :: last :: VStr d :: extra) :: below, flag, ws)
    (before ++ VStr a :: after) st_data
  = let* x := find_tutors (above, flag, ws)
                (before ++ VStr a :: after) st_data in
    let* c := find_tutors (below, flag, ws)
                (before ++ VStr a :: after) st_data in
    Ok (x ++ [id; first; last; tutor] :: c).
Proof.
  intros Habs Ha Hst Hrow Htutor Hne.
  apply (find_tutors_middle _ _ _ [[id; first; last; tutor]]).
  rewrite (tutor_entries_first_match _ _ _ _ _ d); [|done..].
  rewrite compare_pairing_spec, Hrow by done.
  unfold getitem. rewrite Htutor. simpl.
  by rewrite bool_decide_true.
Qed.

Lemma mismatch_reports_pairing_tutor_witness :
  find_tutors
    ([] ++ [VStr "S3"; VStr "Cy"; VStr "Roe"; VStr "tutor: Smith"]
        :: [], false, [])
    ([] ++ VStr "Smith" :: [VStr "Jones"])
    [[VStr "S1"; VStr "Ann"; VStr "Lee"; VStr "C1"; VStr "Smith"];
     [VStr "S3"; VStr "Cy"; VStr "Roe"; VStr "C1"; VStr "Jones"]]
  = Ok [[VStr "S3"; VStr "Cy"; VStr "Roe"; VStr "Jones"]].
Proof.
  apply (mismatch_reports_pairing_tutor [] [] false []
           (VStr "S3") (VStr "Cy") (VStr "Roe") [] "tutor: Smith"
           [] "Smith" [VStr "Jones"] _
           [VStr "S3"; VStr "Cy"; VStr "Roe"; VStr "C1"; VStr "Jones"]
           (VStr "Jones")).
  - constructor.
  - reflexivity.
  - by repeat constructor.
  - reflexivity.
  - reflexivity.
  - discriminate.
Defined.

(** C6: no roster name in the field.  The record always adds one
    entry; its tutor cell is the [Tutor] cell of the student's pairing
    row, or the empty string when the table has no row for the
    student. *)
Theorem no_roster_name_always_flagged above below flag ws
    id first last extra d tutor_names st_data tutor :
  Forall (absent_from d) tutor_names →
  Forall (λ r, r ≠ []) st_data →
  match pairing_row id st_data with
  | Some item => item !! 4 = Some tutor
  | None => tutor = VStr ""
  end →
  find_tutors
    (above ++ (id :: first :: last :: VStr d :: extra) :: below, flag, ws)
    tutor_names st_data
  = let* x := find_tutors (above, flag, ws) tutor_names st_data in
    let* c := find_tutors (below, flag, ws) tutor_names st_data in
    Ok (x ++ [id; first; last; tutor] :: c).
Proof.
  intros Habs Hst Htutor.
  apply (find_tutors_middle _ _ _ [[id; first; last; tutor]]).
  rewrite (tutor_entries_no_match _ _ _ d); [|done..].
  rewrite lookup_tutor_spec by done.
  destruct (pairing_row id st_data) as [item|].
  - unfold getitem at 1. by rewrite Htutor.
  - by subst tutor.
Qed.

Lemma no_roster_name_always_flagged_witness :
  find_tutors
    ([] ++ [VStr "S3"; VStr "Cy"; VStr "Roe"; VStr "no tutor yet"]
        :: [[VStr "S9"; VStr "Di"; VStr "Poe"; VStr ""]], false, [])
    [VStr "Smith"; VStr "Jones"]
    [[VStr "S3"; VStr "Cy"; VStr "Roe"; VStr "C1"; VStr "Jones"]]
  = Ok [[VStr "S3"; VStr "Cy"; VStr "Roe"; VStr "Jones"];
        [VStr "S9"; VStr "Di"; VStr "Poe"; VStr ""]].
Proof.
  rewrite (no_roster_name_always_flagged [] _ false []
             (VStr "S3") (VStr "Cy") (VStr "Roe") [] "no tutor yet"
             _ _ (VStr "Jones")).
  - rewrite (no_roster_name_always_flagged [] [] false []
               (VStr "S9") (VStr "Di") (VStr "Poe") [] ""
               [VStr "Smith"; VStr "Jones"] _ (VStr "")).
    + reflexivity.
    + repeat constructor; by eexists.
    + by repeat constructor.
    + reflexivity.
  - repeat constructor; by eexists.
  - by repeat constructor.
  - reflexivity.
Defined.

Lemma first_match_split tutor_names d :
  Forall is_str tutor_names →
  Exists (occurs_in d) tutor_names →
  ∃ before a after,
    tutor_names = before ++ VStr a :: after
    ∧ Forall (absent_from d) before ∧ str_contains a d = true.
Proof.
  induction 1 as [|n tutor_names [s ->] Hstr IH]; intros Hex.
  - by apply Exists_nil in Hex.
  - destruct (str_contains s d) eqn:Hs.
    + by exists [], s, tutor_names.
    + apply Exists_cons in Hex as [(s' & [= <-] & Hs')|Hex]; [congruence|].
      destruct (IH Hex) as (before & a & after & -> & Habs & Ha).
      exists (VStr s :: before), a, after. split; [done|].
      split; [|done]. constructor; [by exists s | done].
Qed.

(** C7: some roster name occurs in the field but the pairing table has
    no row for the student: the record adds nothing to the output. *)
Theorem matched_without_pairing_not_flagged above below flag ws
    id first last extra d tutor_names st_data :
  Forall is_str tutor_names →
  Exists (occurs_in d) tutor_names →
  Forall (λ r, r ≠ []) st_data →
  pairing_row id st_data = None →
  find_tutors
    (above ++ (id :: first :: last :: VStr d :: extra) :: below, flag, ws)
    tutor_names st_data
  = let* x := find_tutors (above, flag, ws) tutor_names st_data in
    let* c := find_tutors (below, flag, ws) tutor_names st_data in
    Ok (x ++ c).
Proof.
  intros Hstr Hex Hst Hrow.
  destruct (first_match_split _ _ Hstr Hex)
    as (before & a & after & -> & Habs & Ha).
  apply (find_tutors_middle _ _ _ []).
  rewrite (tutor_entries_first_match _ _ _ _ _ d); [|done..].
  by rewrite compare_pairing_spec, Hrow.
Qed.

Lemma matched_without_pairing_not_flagged_witness :
  find_tutors
    ([] ++ [VStr "S3"; VStr "Cy"; VStr "Roe"; VStr "tutor: Smith"]
        :: [], false, [])
    [VStr "Jones"; VStr "Smith"]
    [[VStr "S1"; VStr "Ann"; VStr "Lee"; VStr "C1"; VStr "Jones"]]
  = Ok [].
Proof.
  apply (matched_without_pairing_not_flagged [] [] false []
           (VStr "S3") (VStr "Cy") (VStr "Roe") [] "tutor: Smith"
           [VStr "Jones"; VStr "Smith"]
           [[VStr "S1"; VStr "Ann"; VStr "Lee"; VStr "C1"; VStr "Jones"]]).
  - repeat constructor; by eexists.
  - apply Exists_cons_tl, Exists_cons_hd. by exists "Smith".
  - by repeat constructor.
  - reflexivity.
Defined.
End TutorCheck.

(** ** Order of the output *)

Section Order.
Implicit Types (tutor_names : list value) (st_data : list row).
Implicit Types (student out_row : row) (id first last tutor : value).

Lemma take_3_cells student id first last :
  getitem student 0 = Ok id →
  getitem student 1 = Ok first →
  getitem student 2 = Ok last →
  take 3 student = [id; first; last].
Proof.
  destruct student as [|c0 [|c1 [|c2 student]]]; cbn; try discriminate.
  by intros [= ->] [= ->] [= ->].
Qed.

Ltac run H :=
  repeat match type of H with
  | bind ?m _ = Ok _ =>
      let E := fresh "E" in destruct m eqn:E; simpl in H; try discriminate H
  | (if ?b then _ else _) = Ok _ =>
      let E := fresh "E" in destruct b eqn:E
  | match ?x with VNone => _ | VStr _ => _ end = Ok _ =>
      destruct x; try discriminate H
  end.

(** A record adds nothing, or its own first three cells. *)
Lemma id_entries_shape student (out : list row) :
  id_entries student = Ok out → out = [] ∨ out = [take 3 student].
Proof.
  unfold id_entries, find_student_ids_body. intros H. run H;
    injection H as <-; auto; right; simpl;
    by erewrite take_3_cells.
Qed.

Lemma compare_pairing_shape tutor_name student st_data (out : list row) :
  compare_pairing tutor_name student st_data [] = Ok out →
  out = [] ∨ ∃ id first last tutor,
    take 3 student = [id; first; last] ∧ out = [[id; first; last; tutor]].
Proof.
  induction st_data as [|item st_data IH]; simpl; intros H.
  - left. congruence.
  - run H; try (by apply IH); injection H as <-; auto.
    right. do 4 eexists. split; [by eapply take_3_cells | done].
Qed.

Lemma scan_tutors_shape tutor_names st_data student fuel j found
    (out : list row) :
  scan_tutors tutor_names st_data student fuel j false [] = Ok (found, out) →
  (found = false → out = [])
  ∧ (out = [] ∨ ∃ id first last tutor,
    take 3 student = [id; first; last] ∧ out = [[id; first; last; tutor]]).
Proof.
  revert j. induction fuel as [|fuel IH]; intros j.
  - simpl. destruct (tutor_names !! j); [discriminate|].
    intros [= <- <-]. auto.
  - destruct (tutor_names !! j) as [tutor_name|] eqn:Hj.
    + rewrite (scan_tutors_step _ _ _ _ _ _ _ Hj). intros H. run H.
      * injection H as <- <-. split; [done|].
        by eapply compare_pairing_shape.
      * by eapply IH.
    + rewrite scan_tutors_end by done. intros [= <- <-]. auto.
Qed.

(** A record adds nothing, or its own first three cells and a tutor. *)
Lemma tutor_entries_shape tutor_names st_data student (out : list row) :
  tutor_entries tutor_names st_data student = Ok out →
  out = [] ∨ ∃ id first last tutor,
    take 3 student = [id; first; last] ∧ out = [[id; first; last; tutor]].
Proof.
  unfold tutor_entries, find_tutors_body. intros H.
  destruct (scan_tutors _ _ _ _ _ _ _) as [[found acc]| |] eqn:Hscan;
    simpl in H; try discriminate H.
  apply scan_tutors_shape in Hscan as [Hnone Hshape].
  destruct found; simpl in H.
  - by injection H as <-.
  - rewrite (Hnone eq_refl) in H. run H. injection H as <-.
    right. do 4 eexists. split; [by eapply take_3_cells | done].
Qed.

(** Entries that each come from their own record, collected in input
    order, line up with a subsequence of the input. *)
Lemma collect_sublist {A B C : Type} (f : A → result (list B))
    (g : B → C) (h : A → C) (xs : list A) (out : list B) :
  (∀ x o, f x = Ok o → o = [] ∨ ∃ b, o = [b] ∧ g b = h x) →
  collect f xs = Ok out →
  ∃ kept, kept `sublist_of` xs ∧ g <$> out = h <$> kept.
Proof.
  intros Hf. revert out. induction xs as [|x xs IH]; simpl; intros out H.
  - injection H as <-. by exists [].
  - destruct (f x) as [o| |] eqn:Hx; simpl in H; try discriminate H.
    destruct (collect f xs) as [os| |]; simpl in H; try discriminate H.
    injection H as <-. destruct (IH os eq_refl) as (kept & Hsub & Heq).
    destruct (Hf x o Hx) as [->|(b & -> & Hb)].
    + exists kept. split; [by apply sublist_cons | done].
    + exists (x :: kept). split; [by apply sublist_skip|].
      change ([b] ++ os) with (b :: os).
      by rewrite !fmap_cons, Hb, Heq.
Qed.

(** C8: order preservation.  The students listed by either check are,
    in the order listed, the students of a subsequence of the input
    records: each output entry starts with the first three cells of its
    record, and entries follow the order of their records. *)
Theorem output_preserves_input_order :
  (∀ (rows : list row) flag ws out,
     find_student_ids (rows, flag, ws) = Ok out →
     ∃ kept, kept `sublist_of` rows ∧ out = take 3 <$> kept)
  ∧
  (∀ (rows : list row) flag ws tutor_names st_data out,
     find_tutors (rows, flag, ws) tutor_names st_data = Ok out →
     ∃ kept, kept `sublist_of` rows ∧ take 3 <$> out = take 3 <$> kept).
Proof.
  split.
  - intros rows flag ws out. rewrite find_student_ids_collect. intros H.
    apply (collect_sublist _ id (take 3)) in H.
    + by rewrite list_fmap_id in H.
    + intros x o [-> | ->]%id_entries_shape; eauto.
  - intros rows flag ws tutor_names st_data out.
    rewrite find_tutors_collect. intros H.
    apply (collect_sublist _ (take 3) (take 3)) in H; [done|].
    intros x o [-> | (id & first & last & tutor & Hx & ->)]
      %tutor_entries_shape; [by left|].
    right. eexists. split; [done|]. by rewrite Hx.
Qed.

Lemma output_preserves_input_order_witness :
  (∃ kept,
     kept `sublist_of`
       [[VStr "S1"; VStr "Ann"; VStr "Lee"; VStr "none"];
        [VStr "FitNZ1234"; VStr "Bo"; VStr "Tan"; VStr "FitNZ1234"];
        [VStr "S3"; VStr "Cy"; VStr "Roe"; VStr "FitNZ0000"]]
     ∧ [[VStr "S1"; VStr "Ann"; VStr "Lee"];
        [VStr "S3"; VStr "Cy"; VStr "Roe"]] = take 3 <$> kept)
  ∧
  (∃ kept,
     kept `sublist_of`
       [[VStr "S1"; VStr "Ann"; VStr "Lee"; VStr "none"];
        [VStr "S2"; VStr "Bo"; VStr "Tan"; VStr "Smith"];
        [VStr "S3"; VStr "Cy"; VStr "Roe"; VStr "Smith"]]
     ∧ take 3 <$> [[VStr "S1"; VStr "Ann"; VStr "Lee"; VStr ""];
                   [VStr "S3"; VStr "Cy"; VStr "Roe"; VStr "Jones"]]
       = take 3 <$> kept).
Proof.
  split.
  - apply (proj1 output_preserves_input_order _ false []). reflexivity.
  - apply (proj2 output_preserves_input_order _ false []
             [VStr "Smith"]
             [[VStr "S2"; VStr "Bo"; VStr "Tan"; VStr "C1"; VStr "Smith"];
              [VStr "S3"; VStr "Cy"; VStr "Roe"; VStr "C1"; VStr "Jones"]]).
    reflexivity.
Defined.
End Order.

(** ** The field validators *)

Section Validators.
Implicit Types (report_data : list row) (student : row).
Implicit Types (errors warns : list string).

Lemma check_fields_loop report_data errors warns :
  Forall (λ student, 4 ≤ length student) report_data →
  for_each check_fields_step report_data (errors, warns)
  = Ok (errors ++ flat_map data_errors report_data,
        warns ++ flat_map name_warnings report_data).
Proof.
  intros Hrows. revert errors warns.
  induction Hrows as [|student report_data Hlen _ IH]; intros errors warns.
  - simpl. by rewrite !app_nil_r.
  - destruct student as [|id [|first [|last [|data extra]]]];
      simpl in Hlen; try lia.
    cbn [for_each flat_map]. unfold check_fields_step at 1.
    unfold data_errors at 1, name_warnings at 1.
    cbn [getitem lookup list_lookup bind nth].
    destruct (blank first), (blank last), (blank data);
      cbn [bind]; rewrite IH; by rewrite <- ?app_assoc.
Qed.

Lemma check_s_t_loop report_data errors warns :
  Forall (λ student, 5 ≤ length student) report_data →
  ∃ st, for_each check_s_t_step report_data (errors, warns) = Ok st.
Proof.
  intros Hrows. revert errors warns.
  induction Hrows as [|student report_data Hlen _ IH]; intros errors warns.
  - by eexists.
  - destruct student as [|id [|first [|last [|course [|tutor extra]]]]];
      simpl in Hlen; try lia.
    cbn [for_each]. unfold check_s_t_step at 1.
    cbn [getitem lookup list_lookup bind].
    destruct (blank first), (blank last), (blank course), (blank tutor);
      cbn [bind]; apply IH.
Qed.

Lemma error_log_finish title errors warns :
  concat (fst <$> error_log (finish_check title (errors, warns))) = errors.
Proof.
  unfold finish_check. simpl. case_bool_decide; simpl.
  - apply app_nil_r.
  - destruct errors; [done | simpl in *; lia].
Qed.

(** C5, as the spec words it, fails: a record with an empty data
    payload gets its entry in the error list and is then flagged by the
    identifier check, so it adds one entry to the discrepancy output,
    not zero. *)
Lemma empty_data_is_still_flagged :
  check_fields_data [[VStr "S1"; VStr "Ann"; VStr "Lee"; VStr ""]]
  = Ok {| error_log :=
            [(["Data is missing for student with Student ID S1"],
              "Student Profile Fields Report")];
          has_warnings := false;
          warnings := [newline +:+ "Student Profile Fields Report Warnings:"
                       +:+ newline] |}
  ∧
  find_student_ids
    ([[VStr "S1"; VStr "Ann"; VStr "Lee"; VStr ""]], false, [])
  = Ok [[VStr "S1"; VStr "Ann"; VStr "Lee"]].
Proof. split; reflexivity. Qed.

(** C5 (amended): validator separation.  Over rows of four cells or
    more, [check_fields_data] returns; the errors it hands to the
    error log are, record by record, one entry for each record whose
    data payload is empty and none for any other record, whatever its
    names; the warnings after the title are, record by record, one for
    an empty first name and one for an empty last name.  The record
    with an empty data payload stays in the matching: the identifier
    check finds no marker in it and flags it with one entry. *)
Theorem validator_separation :
  (∀ report_data,
     Forall (λ student, 4 ≤ length student) report_data →
     ∃ v, check_fields_data report_data = Ok v
          ∧ concat (fst <$> error_log v) = flat_map data_errors report_data
          ∧ warnings v
            = (newline +:+ "Student Profile Fields Report Warnings:"
               +:+ newline) :: flat_map name_warnings report_data)
  ∧ (∀ student,
       length (data_errors student)
       = (if blank (nth 3 student VNone) then 1 else 0)
       ∧ length (name_warnings student)
         = (if blank (nth 1 student VNone) then 1 else 0)
           + (if blank (nth 2 student VNone) then 1 else 0))
  ∧ (∀ (above below : list row) flag ws id first last extra,
       find_student_ids
         (above ++ (id :: first :: last :: VStr "" :: extra) :: below,
          flag, ws)
       = let* a := find_student_ids (above, flag, ws) in
         let* c := find_student_ids (below, flag, ws) in
         Ok (a ++ [id; first; last] :: c)).
Proof.
  split; [|split].
  - intros report_data Hrows. unfold check_fields_data.
    rewrite (check_fields_loop _ _ _ Hrows). cbn [bind].
    eexists. split; [done|]. split; [apply error_log_finish | done].
  - intros student. unfold data_errors, name_warnings.
    rewrite length_app.
    by destruct (blank (nth 3 _ _)), (blank (nth 1 _ _)),
      (blank (nth 2 _ _)).
  - intros above below flag ws id first last extra.
    apply (find_student_ids_middle _ _ _ [[id; first; last]]).
    by apply id_entries_no_marker.
Qed.

Lemma validator_separation_witness :
  ∃ v, check_fields_data
         [[VStr "S1"; VStr ""; VStr "Lee"; VStr "FitNZ0001"];
          [VStr "S2"; VStr "Bo"; VStr "Tan"; VStr ""]] = Ok v
       ∧ concat (fst <$> error_log v)
         = ["Data is missing for student with Student ID S2"]
       ∧ warnings v
         = [newline +:+ "Student Profile Fields Report Warnings:"
            +:+ newline;
            "First Name is missing for student with Student ID S1"].
Proof.
  apply (proj1 validator_separation
           [[VStr "S1"; VStr ""; VStr "Lee"; VStr "FitNZ0001"];
            [VStr "S2"; VStr "Bo"; VStr "Tan"; VStr ""]]).
  repeat constructor; simpl; lia.
Defined.
End Validators.

(** ** Exceptions *)

Section NoExceptions.
Implicit Types (tutor_names : list value) (st_data : list row).
Implicit Types (student : row).

Lemma id_entries_total student :
  profile_row student → ∃ out, id_entries student = Ok out.
Proof.
  intros (id & first & last & d & extra & ->).
  unfold id_entries, find_student_ids_body.
  cbn [getitem lookup list_lookup bind].
  destruct (str_contains identifier d); [|by eexists].
  case_bool_decide; by eexists.
Qed.

Lemma pairing_row_elem id st_data item :
  pairing_row id st_data = Some item → item ∈ st_data.
Proof.
  intros (st1 & st2 & -> & _)%pairing_row_Some.
  apply elem_of_app. right. apply elem_of_cons. by left.
Qed.

Lemma pairing_cell_4 id st_data item :
  Forall (λ r, 5 ≤ length r) st_data →
  pairing_row id st_data = Some item →
  ∃ tutor, getitem item 4 = Ok tutor.
Proof.
  intros Hst Hrow%pairing_row_elem.
  rewrite Forall_forall in Hst. specialize (Hst _ Hrow).
  unfold getitem. destruct (lookup_lt_is_Some_2 item 4 Hst) as [t ->].
  by eexists.
Qed.

Lemma rows_not_empty st_data :
  Forall (λ r, 5 ≤ length r) st_data → Forall (λ r, r ≠ []) st_data.
Proof.
  intros H. eapply Forall_impl; [done|].
  intros [|c r]; simpl; [lia | done].
Qed.

Lemma compare_pairing_total tutor_name student st_data (acc : list row) :
  profile_row student →
  Forall (λ r, 5 ≤ length r) st_data →
  ∃ out, compare_pairing tutor_name student st_data acc = Ok out.
Proof.
  intros (id & first & last & d & extra & ->) Hst.
  rewrite compare_pairing_spec by by apply rows_not_empty.
  destruct (pairing_row id st_data) as [item|] eqn:Hrow; [|by eexists].
  destruct (pairing_cell_4 _ _ _ Hst Hrow) as [tutor ->]. by eexists.
Qed.

Lemma lookup_tutor_total student st_data :
  profile_row student →
  Forall (λ r, 5 ≤ length r) st_data →
  ∃ tutor, lookup_tutor student st_data = Ok tutor.
Proof.
  intros (id & first & last & d & extra & ->) Hst.
  rewrite lookup_tutor_spec by by apply rows_not_empty.
  destruct (pairing_row id st_data) as [item|] eqn:Hrow; [|by eexists].
  by eapply pairing_cell_4.
Qed.

(** The budget [len(tutor_names)] is enough for the scan. *)
Lemma scan_tutors_total tutor_names st_data student fuel j
    (acc : list row) :
  profile_row student →
  Forall is_str tutor_names →
  Forall (λ r, 5 ≤ length r) st_data →
  length tutor_names ≤ fuel + j →
  ∃ r, scan_tutors tutor_names st_data student fuel j false acc = Ok r.
Proof.
  intros Hrow Hnames Hst. revert j.
  induction fuel as [|fuel IH]; intros j Hfuel.
  - rewrite scan_tutors_end by (apply lookup_ge_None_2; lia). by eexists.
  - destruct (tutor_names !! j) as [tutor_name|] eqn:Hj.
    + rewrite (scan_tutors_step _ _ _ _ _ _ _ Hj).
      rewrite Forall_lookup in Hnames.
      destruct (Hnames _ _ Hj) as [n ->].
      destruct Hrow as (id & first & last & d & extra & ->).
      cbn [getitem lookup list_lookup bind py_in].
      destruct (str_contains n d).
      * edestruct (compare_pairing_total (VStr n)) as [out ->];
          [by do 5 eexists | done |]. by eexists.
      * apply IH. lia.
    + rewrite scan_tutors_end by done. by eexists.
Qed.

Lemma tutor_entries_total tutor_names st_data student :
  profile_row student →
  Forall is_str tutor_names →
  Forall (λ r, 5 ≤ length r) st_data →
  ∃ out, tutor_entries tutor_names st_data student = Ok out.
Proof.
  intros Hrow Hnames Hst. unfold tutor_entries, find_tutors_body.
  destruct (scan_tutors_total tutor_names st_data student
              (length tutor_names) 0 [] Hrow Hnames Hst ltac:(lia))
    as [[found acc] ->].
  cbn [bind fst snd]. destruct found; [by eexists|].
  destruct (lookup_tutor_total _ _ Hrow Hst) as [tutor ->].
  destruct Hrow as (id & first & last & d & extra & ->).
  by eexists.
Qed.

(** C9, as the spec words it, fails: a row with fewer cells than the
    code reads -- a short line of the CSV file -- makes the validator
    and the identifier check raise [IndexError]. *)
Lemma short_row_raises :
  check_fields_data [[VStr "S1"; VStr "Ann"]] = Raise IndexError
  ∧ find_student_ids ([[VStr "S1"; VStr "Ann"]], false, [])
    = Raise IndexError.
Proof. split; reflexivity. Qed.

(** C9 (amended): no exception on well-shaped input.  On rows that
    have the cells the code reads (four for profile rows, with a [str]
    data cell for the two checks; five for pairing rows; [str] roster
    names) each of the four functions returns a result: no exception,
    and every loop ends within its bounds. *)
Theorem no_exception_on_shaped_rows :
  (∀ report_data,
     Forall (λ student, 4 ≤ length student) report_data →
     ∃ v, check_fields_data report_data = Ok v)
  ∧ (∀ report_data,
       Forall (λ student, 5 ≤ length student) report_data →
       ∃ v, check_s_t report_data = Ok v)
  ∧ (∀ (rows : list row) flag ws,
       Forall profile_row rows →
       ∃ out, find_student_ids (rows, flag, ws) = Ok out)
  ∧ (∀ (rows : list row) flag ws tutor_names st_data,
       Forall profile_row rows →
       Forall is_str tutor_names →
       Forall (λ item, 5 ≤ length item) st_data →
       ∃ out, find_tutors (rows, flag, ws) tutor_names st_data = Ok out).
Proof.
  repeat split.
  - intros report_data Hrows. unfold check_fields_data.
    rewrite (check_fields_loop _ _ _ Hrows). by eexists.
  - intros report_data Hrows. unfold check_s_t.
    destruct (check_s_t_loop _ []
                [newline +:+ "Students Tutors data Warnings:" +:+ newline]
                Hrows) as [st ->].
    by eexists.
  - intros rows flag ws Hrows. rewrite find_student_ids_collect.
    apply collect_total. eapply Forall_impl; [done|].
    apply id_entries_total.
  - intros rows flag ws tutor_names st_data Hrows Hnames Hst.
    rewrite find_tutors_collect. apply collect_total.
    eapply Forall_impl; [done|]. intros student Hrow.
    by apply tutor_entries_total.
Qed.

Lemma no_exception_on_shaped_rows_witness :
  (∃ v, check_fields_data
          [[VStr "S1"; VStr ""; VStr "Lee"; VNone]] = Ok v)
  ∧ (∃ v, check_s_t
            [[VStr "S1"; VStr "Ann"; VStr "Lee"; VStr "C1"; VStr ""]]
          = Ok v)
  ∧ (∃ out, find_student_ids
              ([[VStr "S1"; VStr "Ann"; VStr "Lee"; VStr "FitNZ"]],
               false, []) = Ok out)
  ∧ (∃ out, find_tutors
              ([[VStr "S1"; VStr "Ann"; VStr "Lee"; VStr "Smith"]],
               false, [])
              [VStr "Jones"; VStr "Smith"]
              [[VStr "S1"; VStr "Ann"; VStr "Lee"; VStr "C1"; VStr "Jones"]]
            = Ok out).
Proof.
  destruct no_exception_on_shaped_rows as (H1 & H2 & H3 & H4).
  split; [|split; [|split]].
  - apply H1. repeat constructor; simpl; lia.
  - apply H2. repeat constructor; simpl; lia.
  - apply H3. repeat constructor. by do 5 eexists.
  - apply H4.
    + repeat constructor. by do 5 eexists.
    + repeat constructor; by eexists.
    + repeat constructor; simpl; lia.
Defined.
End NoExceptions.

(** ** The step budgets are enough *)

Section Budget.
Implicit Types (tutor_names : list value) (st_data : list row).
Implicit Types (student : row).

Lemma bind_not_Loop {A B : Type} (m : result A) (k : A → result B) :
  m ≠ Loop → (∀ a, k a ≠ Loop) → bind m k ≠ Loop.
Proof. destruct m; simpl; auto. Qed.

Lemma getitem_not_Loop {A : Type} (xs : list A) (i : nat) :
  getitem xs i ≠ Loop.
Proof. unfold getitem. by destruct (xs !! i). Qed.

Ltac no_loop :=
  repeat first
    [ done
    | apply getitem_not_Loop
    | apply bind_not_Loop; [|intros ?]
    | match goal with
      | |- (if ?b then _ else _) ≠ Loop => destruct b
      | |- match ?x with VNone => _ | VStr _ => _ end ≠ Loop => destruct x
      end ].

Lemma collect_not_Loop {A B : Type} (f : A → result (list B)) xs :
  (∀ x, f x ≠ Loop) → collect f xs ≠ Loop.
Proof. intros Hf. induction xs; simpl; [done|]. no_loop; auto. Qed.

Lemma compare_pairing_not_Loop tutor_name student st_data (acc : list row) :
  compare_pairing tutor_name student st_data acc ≠ Loop.
Proof. induction st_data; simpl; no_loop. Qed.

Lemma lookup_tutor_not_Loop student st_data :
  lookup_tutor student st_data ≠ Loop.
Proof. induction st_data; simpl; no_loop. Qed.

Lemma scan_tutors_not_Loop tutor_names st_data student fuel j
    (acc : list row) :
  length tutor_names ≤ fuel + j →
  scan_tutors tutor_names st_data student fuel j false acc ≠ Loop.
Proof.
  revert j. induction fuel as [|fuel IH]; intros j Hfuel.
  - by rewrite scan_tutors_end by (apply lookup_ge_None_2; lia).
  - destruct (tutor_names !! j) as [tutor_name|] eqn:Hj.
    + rewrite (scan_tutors_step _ _ _ _ _ _ _ Hj). no_loop.
      * unfold py_in. by destruct tutor_name, a.
      * apply compare_pairing_not_Loop.
      * apply IH. lia.
    + by rewrite scan_tutors_end.
Qed.

(** Neither check runs out of steps, on any input. *)
Lemma find_student_ids_not_Loop student_data :
  find_student_ids student_data ≠ Loop.
Proof.
  destruct student_data as [[rows flag] ws].
  rewrite find_student_ids_collect. apply collect_not_Loop.
  intros student. unfold id_entries, find_student_ids_body. no_loop.
Qed.

Lemma find_tutors_not_Loop student_data tutor_names st_data :
  find_tutors student_data tutor_names st_data ≠ Loop.
Proof.
  destruct student_data as [[rows flag] ws].
  rewrite find_tutors_collect. apply collect_not_Loop.
  intros student. unfold tutor_entries, find_tutors_body. no_loop.
  - apply scan_tutors_not_Loop. lia.
  - apply lookup_tutor_not_Loop.
Qed.
End Budget.

(** * Further properties of the code *)

(** ** More on strings and on [collect] *)

Section MoreStrings.
Implicit Types s t sub : string.

Lemma index_split sub s p :
  String.index 0 sub s = Some p →
  ∃ pre rest, s = pre +:+ sub +:+ rest ∧ String.length pre = p.
Proof.
  revert p. induction s as [|c s IH]; intros p.
  - destruct sub; simpl; [|discriminate]. intros [= <-]. by exists "", "".
  - rewrite index_0_cons.
    destruct (String.prefix sub (String c s)) eqn:Hp.
    + intros [= <-]. destruct (prefix_split _ _ Hp) as [r ->].
      by exists "", r.
    + destruct (String.index 0 sub s) as [q|]; [|discriminate].
      intros [= <-]. destruct (IH q eq_refl) as (pre & rest & -> & <-).
      by exists (String c pre), rest.
Qed.

Lemma substring_0_length s m :
  String.length (String.substring 0 m s) ≤ m.
Proof.
  revert m. induction s as [|c s IH]; intros [|m]; simpl; try lia.
  specialize (IH m). lia.
Qed.

Lemma substring_0_split s m : ∃ t, s = String.substring 0 m s +:+ t.
Proof.
  revert m. induction s as [|c s IH]; intros [|m]; simpl.
  - by exists "".
  - by exists "".
  - by exists (String c s).
  - destruct (IH m) as [t Ht]. exists t. rewrite append_cons. by f_equal.
Qed.
End MoreStrings.

Section MoreCollect.
Context {A B : Type} (f : A → result (list B)).

Lemma collect_Ok_inv (xs : list A) (out : list B) :
  collect f xs = Ok out → Forall (λ x, ∃ o, f x = Ok o) xs.
Proof.
  revert out. induction xs as [|x xs IH]; intros out H; [constructor|].
  simpl in H. destruct (f x) as [o| |] eqn:Hx; simpl in H; try discriminate.
  destruct (collect f xs) as [os| |]; simpl in H; try discriminate.
  constructor; [by eexists | by eapply IH].
Qed.

(** The first element on which [f] raises decides the exception. *)
Lemma collect_raise (xs ys : list A) (x : A) (e : exn) :
  Forall (λ x, ∃ o, f x = Ok o) xs →
  f x = Raise e →
  collect f (xs ++ x :: ys) = Raise e.
Proof.
  intros Hxs Hx. rewrite collect_insert.
  destruct (collect_total f xs Hxs) as [outs ->]. simpl. by rewrite Hx.
Qed.

Lemma collect_bounded (P : B → Prop) (xs : list A) (out : list B) :
  (∀ x o, f x = Ok o → Forall P o ∧ length o ≤ 1) →
  collect f xs = Ok out →
  Forall P out ∧ length out ≤ length xs.
Proof.
  intros Hf. revert out. induction xs as [|x xs IH]; simpl; intros out H.
  - injection H as <-. by split.
  - destruct (f x) as [o| |] eqn:Hx; simpl in H; try discriminate.
    destruct (collect f xs) as [os| |]; simpl in H; try discriminate.
    injection H as <-. destruct (Hf x o Hx) as [Ho Hlen].
    destruct (IH os eq_refl) as [Hos Hlens]. split.
    + by apply Forall_app.
    + rewrite length_app. lia.
Qed.
End MoreCollect.

(** ** More on the identifier check *)

Section MoreIdentifier.
Implicit Types (above below : list row) (flag : bool) (ws : list string).
Implicit Types (id first last : value) (student extra : row).
Implicit Types (sid d : string).

Ltac run_id H :=
  repeat match type of H with
  | bind ?m _ = Ok _ =>
      let E := fresh "E" in destruct m eqn:E; simpl in H; try discriminate H
  | (if ?b then _ else _) = Ok _ =>
      let E := fresh "E" in destruct b eqn:E
  | match ?x with VNone => _ | VStr _ => _ end = Ok _ =>
      destruct x; try discriminate H
  end.

(** X1: identifier absence.  A record whose field does not contain the
    marker is always listed, wherever it stands in the input. *)
Theorem marker_absent_is_flagged above below flag ws id first last extra d :
  str_contains identifier d = false →
  find_student_ids
    (above ++ (id :: first :: last :: VStr d :: extra) :: below, flag, ws)
  = let* a := find_student_ids (above, flag, ws) in
    let* c := find_student_ids (below, flag, ws) in
    Ok (a ++ [id; first; last] :: c).
Proof.
  intros Hd. apply (find_student_ids_middle _ _ _ [[id; first; last]]).
  by apply id_entries_no_marker.
Qed.

Lemma marker_absent_is_flagged_witness :
  find_student_ids
    ([] ++ [VStr "FitNZ1234"; VStr "Ann"; VStr "Lee"; VStr "fitnz1234"]
        :: [], false, [])
  = Ok [[VStr "FitNZ1234"; VStr "Ann"; VStr "Lee"]].
Proof.
  apply (marker_absent_is_flagged [] [] false [] (VStr "FitNZ1234")
           (VStr "Ann") (VStr "Lee") [] "fitnz1234").
  reflexivity.
Defined.

Lemma id_entries_profile student (out : list row) :
  id_entries student = Ok out → profile_row student.
Proof.
  unfold id_entries, find_student_ids_body. intros H.
  destruct student as [|id [|first [|last [|data extra]]]];
    try discriminate H.
  destruct data as [|d]; [discriminate H|]. by do 5 eexists.
Qed.

(** X2: what a clean record looks like.  A record the check lets pass
    has a [studentId] that is a string of five to nine characters,
    begins with the marker and occurs in the record's field. *)
Theorem clean_record_shape student flag ws :
  find_student_ids ([student], flag, ws) = Ok [] →
  ∃ sid d,
    student !! 0 = Some (VStr sid) ∧ student !! 3 = Some (VStr d)
    ∧ String.prefix identifier sid = true
    ∧ 5 ≤ String.length sid ≤ 9
    ∧ str_contains sid d = true.
Proof.
  rewrite find_student_ids_collect, collect_one. intros H.
  destruct (id_entries_profile _ _ H) as (id & first & last & d & extra & ->).
  destruct (String.index 0 identifier d) as [p|] eqn:Hp.
  - destruct (index_split _ _ _ Hp) as (pre & rest & -> & <-).
    unfold id_entries, find_student_ids_body in H.
    cbn [getitem lookup list_lookup bind] in H.
    unfold str_contains, str_find in H. rewrite Hp in H.
    rewrite str_slice_first in H.
    case_bool_decide as Hid; [discriminate H|].
    subst id.
    exists (String.substring 0 9 (identifier +:+ rest)),
      (pre +:+ identifier +:+ rest).
    split; [done|]. split; [done|].
    assert (Hs : String.substring 0 9 (identifier +:+ rest)
                 = identifier +:+ String.substring 0 4 rest) by reflexivity.
    split; [rewrite Hs; apply prefix_app|]. split.
    + rewrite Hs, length_append. change (String.length identifier) with 5.
      pose proof (substring_0_length rest 4). lia.
    + apply str_contains_spec.
      destruct (substring_0_split (identifier +:+ rest) 9) as [t Ht].
      exists pre, t. by rewrite <- Ht.
  - rewrite id_entries_no_marker in H by by apply str_contains_false.
    discriminate H.
Qed.

Lemma clean_record_shape_witness :
  ∃ sid d,
    [VStr "FitNZ1234"; VStr "Ann"; VStr "Lee"; VStr "id FitNZ1234."] !! 0
    = Some (VStr sid)
    ∧ [VStr "FitNZ1234"; VStr "Ann"; VStr "Lee"; VStr "id FitNZ1234."] !! 3
      = Some (VStr d)
    ∧ String.prefix identifier sid = true
    ∧ 5 ≤ String.length sid ≤ 9
    ∧ str_contains sid d = true.
Proof.
  apply (clean_record_shape _ false []). reflexivity.
Defined.

(** X3: when the identifier check returns.  It returns a list exactly
    when every row has four cells or more and a string in its data
    cell. *)
Theorem find_student_ids_returns_iff (rows : list row) flag ws :
  (∃ out, find_student_ids (rows, flag, ws) = Ok out)
  ↔ Forall profile_row rows.
Proof.
  rewrite find_student_ids_collect. split.
  - intros [out H%collect_Ok_inv]. eapply Forall_impl; [done|].
    intros student [o Ho]. by eapply id_entries_profile.
  - intros Hrows. apply collect_total. eapply Forall_impl; [done|].
    apply id_entries_total.
Qed.

Lemma find_student_ids_returns_iff_witness :
  Forall profile_row
    [[VStr "S1"; VStr "Ann"; VStr "Lee"; VStr "x"; VStr "more"]].
Proof.
  apply (find_student_ids_returns_iff _ false []).
  eexists. reflexivity.
Defined.

(** X4: which exception.  The first row that is not well shaped decides:
    a row of fewer than four cells raises [IndexError], a row whose data
    cell is [None] raises [TypeError]; the rows after it are not read. *)
Theorem first_bad_row_raises (good rest : list row) (bad : row) flag ws :
  Forall profile_row good →
  (length bad < 4 →
   find_student_ids (good ++ bad :: rest, flag, ws) = Raise IndexError)
  ∧ (bad !! 3 = Some VNone →
     find_student_ids (good ++ bad :: rest, flag, ws) = Raise TypeError).
Proof.
  intros Hgood.
  assert (Hok : Forall (λ x, ∃ o, id_entries x = Ok o) good).
  { eapply Forall_impl; [done|]. apply id_entries_total. }
  rewrite find_student_ids_collect. split; intros Hbad.
  - apply collect_raise; [done|].
    unfold id_entries, find_student_ids_body, getitem.
    by rewrite lookup_ge_None_2 by lia.
  - apply collect_raise; [done|].
    unfold id_entries, find_student_ids_body, getitem. by rewrite Hbad.
Qed.

Lemma first_bad_row_raises_witness :
  find_student_ids
    ([[VStr "S1"; VStr "Ann"; VStr "Lee"; VStr "x"]]
     ++ [VStr "S2"; VStr "Bo"; VStr "Tan"]
        :: [[VStr "S3"; VStr "Cy"; VStr "Roe"; VNone]], false, [])
  = Raise IndexError
  ∧ find_student_ids
      ([[VStr "S1"; VStr "Ann"; VStr "Lee"; VStr "x"]]
       ++ [VStr "S3"; VStr "Cy"; VStr "Roe"; VNone]
          :: [[VStr "S2"; VStr "Bo"; VStr "Tan"]], false, [])
    = Raise TypeError.
Proof.
  split.
  - apply (first_bad_row_raises
             [[VStr "S1"; VStr "Ann"; VStr "Lee"; VStr "x"]]).
    + repeat constructor. by do 5 eexists.
    + simpl. lia.
  - apply (first_bad_row_raises
             [[VStr "S1"; VStr "Ann"; VStr "Lee"; VStr "x"]]).
    + repeat constructor. by do 5 eexists.
    + reflexivity.
Defined.
End MoreIdentifier.

(** ** Both checks, as list operations *)

Section MoreChecks.
Implicit Types (above below : list row) (flag : bool) (ws : list string).
Implicit Types (tutor_names : list value) (st_data : list row).
Implicit Types (student extra : row).

(** X5: the checks work record by record.  Checking two batches one
    after the other, under the same roster and pairing table, gives the
    output of the first followed by the output of the second; when one
    of them raises, so does the whole, the first batch deciding. *)
Theorem checks_split_over_append :
  (∀ above below flag ws,
     find_student_ids (above ++ below, flag, ws)
     = let* a := find_student_ids (above, flag, ws) in
       let* c := find_student_ids (below, flag, ws) in
       Ok (a ++ c))
  ∧
  (∀ above below flag ws tutor_names st_data,
     find_tutors (above ++ below, flag, ws) tutor_names st_data
     = let* a := find_tutors (above, flag, ws) tutor_names st_data in
       let* c := find_tutors (below, flag, ws) tutor_names st_data in
       Ok (a ++ c)).
Proof.
  split; intros.
  - rewrite !find_student_ids_collect. apply collect_app.
  - rewrite !find_tutors_collect. apply collect_app.
Qed.

Lemma id_entries_cells student (out : list row) :
  id_entries student = Ok out →
  Forall (λ entry, length entry = 3) out ∧ length out ≤ 1.
Proof.
  intros H. pose proof (id_entries_profile _ _ H)
    as (id & first & last & d & extra & ->).
  apply id_entries_shape in H as [-> | ->]; simpl; split; auto.
Qed.

Lemma tutor_entries_cells tutor_names st_data student (out : list row) :
  tutor_entries tutor_names st_data student = Ok out →
  Forall (λ entry, length entry = 4) out ∧ length out ≤ 1.
Proof.
  intros [-> | (id & first & last & tutor & _ & ->)]%tutor_entries_shape;
    simpl; split; auto.
Qed.

(** X6: the shape of the output.  Every entry of the missing-identifier
    list has three cells and every entry of the missing-tutor list has
    four; neither list is longer than the input, each record adding at
    most one entry. *)
Theorem output_entries_shape :
  (∀ (rows : list row) flag ws out,
     find_student_ids (rows, flag, ws) = Ok out →
     Forall (λ entry, length entry = 3) out ∧ length out ≤ length rows)
  ∧
  (∀ (rows : list row) flag ws tutor_names st_data out,
     find_tutors (rows, flag, ws) tutor_names st_data = Ok out →
     Forall (λ entry, length entry = 4) out ∧ length out ≤ length rows).
Proof.
  split.
  - intros rows flag ws out. rewrite find_student_ids_collect.
    apply collect_bounded, id_entries_cells.
  - intros rows flag ws tutor_names st_data out. rewrite find_tutors_collect.
    apply collect_bounded, tutor_entries_cells.
Qed.

Lemma output_entries_shape_witness :
  (Forall (λ entry : row, length entry = 3)
     [[VStr "S1"; VStr "Ann"; VStr "Lee"]] ∧ 1 ≤ 2)
  ∧ (Forall (λ entry : row, length entry = 4)
       [[VStr "S1"; VStr "Ann"; VStr "Lee"; VStr ""]] ∧ 1 ≤ 2).
Proof.
  split.
  - apply (proj1 output_entries_shape
             [[VStr "S1"; VStr "Ann"; VStr "Lee"; VStr "none"; VStr "x"];
              [VStr "FitNZ1234"; VStr "Bo"; VStr "Tan"; VStr "FitNZ1234"]]
             false []).
    reflexivity.
  - apply (proj2 output_entries_shape
             [[VStr "S1"; VStr "Ann"; VStr "Lee"; VStr "none"; VStr "x"];
              [VStr "S2"; VStr "Bo"; VStr "Tan"; VStr "Smith"]]
             false [] [VStr "Smith"] []).
    reflexivity.
Defined.
End MoreChecks.

(** ** More on the tutor check *)

Section MoreTutors.
Implicit Types (above below : list row) (flag : bool) (ws : list string).
Implicit Types (tutor_names before after : list value).
Implicit Types (st_data : list row) (student item extra : row).
Implicit Types (id first last tutor tutor_name : value) (d a : string).

(** X7: a match that agrees is clean.  When the first roster name found
    in the field is the [Tutor] cell of the student's pairing row, the
    record adds nothing to the output. *)
Theorem agreeing_match_not_flagged above below flag ws
    id first last extra d before a after st_data item :
  Forall (absent_from d) before →
  str_contains a d = true →
  Forall (λ r, r ≠ []) st_data →
  pairing_row id st_data = Some item →
  item !! 4 = Some (VStr a) →
  find_tutors
    (above ++ (id :: first :: last :: VStr d :: extra) :: below, flag, ws)
    (before ++ VStr a :: after) st_data
  = let* x := find_tutors (above, flag, ws)
                (before ++ VStr a :: after) st_data in
    let* c := find_tutors (below, flag, ws)
                (before ++ VStr a :: after) st_data in
    Ok (x ++ c).
Proof.
  intros Habs Ha Hst Hrow Htutor.
  apply (find_tutors_middle _ _ _ []).
  rewrite (tutor_entries_first_match _ _ _ _ _ d); [|done..].
  rewrite compare_pairing_spec, Hrow by done.
  unfold getitem. rewrite Htutor. simpl.
  by rewrite bool_decide_false by (intros H; by apply H).
Qed.

Lemma agreeing_match_not_flagged_witness :
  find_tutors
    ([] ++ [VStr "S3"; VStr "Cy"; VStr "Roe"; VStr "tutor: Jones"]
        :: [], false, [])
    ([VStr "Smith"] ++ VStr "Jones" :: [])
    [[VStr "S3"; VStr "Cy"; VStr "Roe"; VStr "C1"; VStr "Jones"]]
  = Ok [].
Proof.
  apply (agreeing_match_not_flagged [] [] false []
           (VStr "S3") (VStr "Cy") (VStr "Roe") [] "tutor: Jones"
           [VStr "Smith"] "Jones" [] _
           [VStr "S3"; VStr "Cy"; VStr "Roe"; VStr "C1"; VStr "Jones"]).
  - repeat constructor. by eexists.
  - reflexivity.
  - by repeat constructor.
  - reflexivity.
  - reflexivity.
Defined.

Lemma compare_pairing_cut tutor_name student id st1 item st2
    (acc : list row) :
  student !! 0 = Some id →
  item !! 0 = Some id →
  compare_pairing tutor_name student (st1 ++ item :: st2) acc
  = compare_pairing tutor_name student (st1 ++ [item]) acc.
Proof.
  intros Hs Hi. induction st1 as [|r st1 IH]; simpl.
  - unfold getitem. rewrite Hi, Hs. simpl. by rewrite bool_decide_true.
  - apply bind_ext. intros pk. apply bind_ext. intros id'.
    by case_bool_decide.
Qed.

Lemma lookup_tutor_cut student id st1 item st2 :
  student !! 0 = Some id →
  item !! 0 = Some id →
  lookup_tutor student (st1 ++ item :: st2)
  = lookup_tutor student (st1 ++ [item]).
Proof.
  intros Hs Hi. induction st1 as [|r st1 IH]; simpl.
  - unfold getitem. rewrite Hi, Hs. simpl. by rewrite bool_decide_true.
  - apply bind_ext. intros pk. apply bind_ext. intros id'.
    by case_bool_decide.
Qed.

(** The scan reads the pairing table only through the comparison loop. *)
Lemma scan_tutors_ext tutor_names st_data st_data' student fuel j found
    (acc : list row) :
  (∀ n acc', compare_pairing n student st_data acc'
             = compare_pairing n student st_data' acc') →
  scan_tutors tutor_names st_data student fuel j found acc
  = scan_tutors tutor_names st_data' student fuel j found acc.
Proof.
  intros Hcmp. revert j found acc.
  induction fuel as [|fuel IH]; intros j found acc; simpl; [done|].
  destruct (tutor_names !! j) as [n|]; [|done].
  destruct found; [done|].
  apply bind_ext. intros data. apply bind_ext. intros [|]; [|apply IH].
  rewrite Hcmp. apply bind_ext. intros acc'. apply IH.
Qed.

(** X8: the first pairing row of a student decides.  Whatever the
    pairing table holds after the first row that carries the student's
    id -- more rows for the same student included -- has no effect on
    what the record adds to the output. *)
Theorem first_pairing_row_decides above below flag ws student id
    tutor_names st1 item st2 :
  student !! 0 = Some id →
  item !! 0 = Some id →
  find_tutors (above ++ student :: below, flag, ws)
    tutor_names (st1 ++ item :: st2)
  = let* x := find_tutors (above, flag, ws)
                tutor_names (st1 ++ item :: st2) in
    let* out := find_tutors ([student], flag, ws)
                  tutor_names (st1 ++ [item]) in
    let* c := find_tutors (below, flag, ws)
                tutor_names (st1 ++ item :: st2) in
    Ok (x ++ out ++ c).
Proof.
  intros Hs Hi. rewrite !find_tutors_collect, collect_insert, collect_one.
  apply bind_ext. intros x. f_equal.
  unfold tutor_entries, find_tutors_body.
  rewrite (scan_tutors_ext _ (st1 ++ item :: st2) (st1 ++ [item])) by
    (intros; by eapply compare_pairing_cut).
  by rewrite (lookup_tutor_cut _ _ _ _ _ Hs Hi).
Qed.

Lemma first_pairing_row_decides_witness :
  find_tutors
    ([] ++ [VStr "S3"; VStr "Cy"; VStr "Roe"; VStr "tutor: Smith"]
        :: [], false, [])
    [VStr "Smith"; VStr "Jones"]
    ([[VStr "S1"; VStr "Ann"; VStr "Lee"; VStr "C1"; VStr "Smith"]]
     ++ [VStr "S3"; VStr "Cy"; VStr "Roe"; VStr "C1"; VStr "Jones"]
        :: [[VStr "S3"; VStr "Cy"; VStr "Roe"; VStr "C2"; VStr "Smith"]])
  = Ok [[VStr "S3"; VStr "Cy"; VStr "Roe"; VStr "Jones"]].
Proof.
  rewrite (first_pairing_row_decides [] [] false []
             [VStr "S3"; VStr "Cy"; VStr "Roe"; VStr "tutor: Smith"]
             (VStr "S3")); reflexivity.
Defined.

(** X9: an empty roster.  With no roster name to look for, the data cell
    is never read: every record of three cells or more is listed, with
    the tutor of its pairing row, or [''] when it has none. *)
Theorem empty_roster_flags_every_record above below flag ws
    id first last extra st_data tutor :
  Forall (λ r, r ≠ []) st_data →
  match pairing_row id st_data with
  | Some item => item !! 4 = Some tutor
  | None => tutor = VStr ""
  end →
  find_tutors (above ++ (id :: first :: last :: extra) :: below, flag, ws)
    [] st_data
  = let* x := find_tutors (above, flag, ws) [] st_data in
    let* c := find_tutors (below, flag, ws) [] st_data in
    Ok (x ++ [id; first; last; tutor] :: c).
Proof.
  intros Hst Htutor.
  apply (find_tutors_middle _ _ _ [[id; first; last; tutor]]).
  unfold tutor_entries, find_tutors_body. cbn [length scan_tutors lookup
    list_lookup bind fst snd negb].
  rewrite lookup_tutor_spec by done.
  destruct (pairing_row id st_data) as [item|].
  - unfold getitem at 1. by rewrite Htutor.
  - by subst tutor.
Qed.

Lemma empty_roster_flags_every_record_witness :
  find_tutors
    ([] ++ [VStr "S3"; VStr "Cy"; VStr "Roe"] :: [], false, []) []
    [[VStr "S3"; VStr "Cy"; VStr "Roe"; VStr "C1"; VStr "Jones"]]
  = Ok [[VStr "S3"; VStr "Cy"; VStr "Roe"; VStr "Jones"]].
Proof.
  apply (empty_roster_flags_every_record [] [] false []
           (VStr "S3") (VStr "Cy") (VStr "Roe") [] _ (VStr "Jones")).
  - by repeat constructor.
  - reflexivity.
Defined.
End MoreTutors.

(** ** More on the field validators *)

Section MoreValidators.
Implicit Types (report_data : list row) (student : row).
Implicit Types (errors warns : list string).

Lemma check_fields_step_short student (st : list string * list string) :
  length student < 4 → check_fields_step student st = Raise IndexError.
Proof.
  destruct st as [errors warns].
  destruct student as [|id [|first [|last [|data extra]]]];
    simpl; intros Hlen; try lia; unfold check_fields_step;
    cbn [getitem lookup list_lookup bind]; try done.
  - by destruct (blank first).
  - by destruct (blank first), (blank last).
Qed.

Lemma check_s_t_step_short student (st : list string * list string) :
  length student < 5 → check_s_t_step student st = Raise IndexError.
Proof.
  destruct st as [errors warns].
  destruct student as [|id [|first [|last [|course [|tutor extra]]]]];
    simpl; intros Hlen; try lia; unfold check_s_t_step;
    cbn [getitem lookup list_lookup bind]; try done.
  - by destruct (blank first).
  - by destruct (blank first), (blank last).
  - by destruct (blank first), (blank last), (blank course).
Qed.

Lemma check_fields_step_ok student (st : list string * list string) :
  4 ≤ length student → ∃ st', check_fields_step student st = Ok st'.
Proof.
  intros Hlen. destruct st as [errors warns].
  pose proof (check_fields_loop [student] errors warns
                ltac:(by repeat constructor)) as H.
  cbn [for_each] in H. destruct (check_fields_step _ _); [by eexists|done..].
Qed.

Lemma check_s_t_step_ok student (st : list string * list string) :
  5 ≤ length student → ∃ st', check_s_t_step student st = Ok st'.
Proof.
  intros Hlen. destruct st as [errors warns].
  destruct (check_s_t_loop [student] errors warns
              ltac:(by repeat constructor)) as [st' H].
  cbn [for_each] in H. destruct (check_s_t_step _ _); [by eexists|done..].
Qed.

(** A loop whose step is total on long rows and raises [IndexError] on
    short ones raises as soon as the input has a short row. *)
Lemma for_each_short_row {St : Type} (step : row → St → result St)
    (n : nat) (rows : list row) (st : St) :
  (∀ r s, length r < n → step r s = Raise IndexError) →
  (∀ r s, n ≤ length r → ∃ s', step r s = Ok s') →
  Exists (λ r, length r < n) rows →
  for_each step rows st = Raise IndexError.
Proof.
  intros Hshort Hok. revert st.
  induction rows as [|r rows IH]; intros st Hex.
  - by apply Exists_nil in Hex.
  - simpl. destruct (decide (length r < n)) as [Hr|Hr].
    + by rewrite Hshort.
    + destruct (Hok r st ltac:(lia)) as [s' ->]. simpl.
      apply IH. by apply Exists_cons in Hex as [?|?].
Qed.

(** X10: the validators and short rows.  [check_fields_data] raises
    [IndexError] exactly when some row has fewer than four cells, and
    [check_s_t] exactly when some row has fewer than five; nothing is
    logged or returned then, whatever the rows before held. *)
Theorem validators_raise_iff_short_row :
  (∀ report_data,
     check_fields_data report_data = Raise IndexError
     ↔ Exists (λ student, length student < 4) report_data)
  ∧
  (∀ report_data,
     check_s_t report_data = Raise IndexError
     ↔ Exists (λ student, length student < 5) report_data).
Proof.
  split; intros report_data; split.
  - intros H. destruct (decide (Exists (λ r : row, length r < 4) report_data))
      as [|Hno]; [done|].
    apply not_Exists_Forall in Hno; [|apply _].
    unfold check_fields_data in H. rewrite check_fields_loop in H.
    + discriminate H.
    + eapply Forall_impl; [done|]. simpl. lia.
  - intros Hex. unfold check_fields_data.
    rewrite (for_each_short_row _ 4); [done|..|done].
    + apply check_fields_step_short.
    + apply check_fields_step_ok.
  - intros H. destruct (decide (Exists (λ r : row, length r < 5) report_data))
      as [|Hno]; [done|].
    apply not_Exists_Forall in Hno; [|apply _].
    unfold check_s_t in H.
    edestruct check_s_t_loop as [st Hst];
      [|rewrite Hst in H; discriminate H].
    eapply Forall_impl; [done|]. simpl. lia.
  - intros Hex. unfold check_s_t.
    rewrite (for_each_short_row _ 5); [done|..|done].
    + apply check_s_t_step_short.
    + apply check_s_t_step_ok.
Qed.

Lemma validators_raise_iff_short_row_witness :
  check_fields_data
    [[VStr "S1"; VStr ""; VStr "Lee"; VStr ""]; [VStr "S2"; VStr "Bo"]]
  = Raise IndexError
  ∧ check_s_t
      [[VStr "S1"; VStr "Ann"; VStr "Lee"; VStr "C1"]] = Raise IndexError.
Proof.
  split.
  - apply (proj1 validators_raise_iff_short_row).
    apply Exists_cons_tl, Exists_cons_hd. simpl. lia.
  - apply (proj2 validators_raise_iff_short_row).
    apply Exists_cons_hd. simpl. lia.
Defined.

Lemma data_errors_none report_data :
  flat_map data_errors report_data = []
  ↔ forallb (λ student, negb (blank (nth 3 student VNone))) report_data
    = true.
Proof.
  induction report_data as [|student report_data IH]; [done|].
  cbn [flat_map forallb]. unfold data_errors at 1.
  destruct (blank (nth 3 student VNone)); simpl; [done | apply IH].
Qed.

Lemma name_warnings_some report_data :
  flat_map name_warnings report_data ≠ []
  ↔ existsb (λ student, blank (nth 1 student VNone)
                        || blank (nth 2 student VNone)) report_data
    = true.
Proof.
  induction report_data as [|student report_data IH]; [done|].
  cbn [flat_map existsb]. unfold name_warnings at 1.
  destruct (blank (nth 1 student VNone)), (blank (nth 2 student VNone));
    simpl; try done; apply IH.
Qed.

(** X11: what [check_fields_data] reports.  The flag it returns is
    [True] exactly when some record has an empty first or last name; the
    error log is called once, with all the errors and the report's
    title, when some record has an empty data payload, and not at all
    otherwise. *)
Theorem check_fields_data_reports report_data v :
  Forall (λ student, 4 ≤ length student) report_data →
  check_fields_data report_data = Ok v →
  has_warnings v
  = existsb (λ student, blank (nth 1 student VNone)
                        || blank (nth 2 student VNone)) report_data
  ∧ error_log v
    = (if forallb (λ student, negb (blank (nth 3 student VNone)))
            report_data
       then []
       else [(flat_map data_errors report_data,
              "Student Profile Fields Report")]).
Proof.
  intros Hrows. unfold check_fields_data.
  rewrite (check_fields_loop _ _ _ Hrows). cbn [bind]. intros [= <-].
  unfold finish_check. cbn [has_warnings error_log app length]. split.
  - pose proof (name_warnings_some report_data) as Hw.
    destruct (existsb _ report_data).
    + apply bool_decide_eq_true.
      destruct (flat_map name_warnings report_data); simpl; [|lia].
      by destruct (proj2 Hw eq_refl).
    + apply bool_decide_eq_false.
      destruct (flat_map name_warnings report_data); simpl; [lia|].
      by discriminate (proj1 Hw ltac:(done)).
  - pose proof (data_errors_none report_data) as He.
    destruct (forallb _ report_data).
    + by rewrite (proj2 He eq_refl).
    + rewrite bool_decide_true; [done|].
      destruct (flat_map data_errors report_data); simpl; [|lia].
      by discriminate (proj1 He eq_refl).
Qed.

Lemma check_fields_data_reports_witness :
  ∃ v, check_fields_data
         [[VStr "S1"; VStr "Ann"; VStr ""; VStr "x"];
          [VStr "S2"; VStr "Bo"; VStr "Tan"; VNone]] = Ok v
       ∧ has_warnings v = true
       ∧ error_log v
         = [(["Data is missing for student with Student ID S2"],
             "Student Profile Fields Report")].
Proof.
  eexists. split; [reflexivity|].
  apply (check_fields_data_reports
           [[VStr "S1"; VStr "Ann"; VStr ""; VStr "x"];
            [VStr "S2"; VStr "Bo"; VStr "Tan"; VNone]]).
  - repeat constructor; simpl; lia.
  - reflexivity.
Defined.

Lemma check_s_t_loop_full report_data errors warns :
  Forall (λ student, 5 ≤ length student) report_data →
  for_each check_s_t_step report_data (errors, warns)
  = Ok (errors ++ flat_map tutor_errors report_data,
        warns ++ flat_map s_t_warnings report_data).
Proof.
  intros Hrows. revert errors warns.
  induction Hrows as [|student report_data Hlen _ IH]; intros errors warns.
  - simpl. by rewrite !app_nil_r.
  - destruct student as [|id [|first [|last [|course [|tutor extra]]]]];
      simpl in Hlen; try lia.
    cbn [for_each flat_map]. unfold check_s_t_step at 1.
    unfold tutor_errors at 1, s_t_warnings at 1.
    cbn [getitem lookup list_lookup bind nth].
    destruct (blank first), (blank last), (blank course), (blank tutor);
      cbn [bind]; rewrite IH; by rewrite <- ?app_assoc.
Qed.

(** X12: [check_s_t] keeps errors and warnings apart.  Over rows of five
    cells or more it returns; the errors handed to the error log are one
    entry for each record whose tutor is empty, and the warnings after
    the title are one for each empty first name, last name and course,
    all in input order. *)
Theorem check_s_t_separation report_data :
  Forall (λ student, 5 ≤ length student) report_data →
  ∃ v, check_s_t report_data = Ok v
       ∧ concat (fst <$> error_log v) = flat_map tutor_errors report_data
       ∧ warnings v
         = (newline +:+ "Students Tutors data Warnings:" +:+ newline)
           :: flat_map s_t_warnings report_data.
Proof.
  intros Hrows. unfold check_s_t.
  rewrite (check_s_t_loop_full _ _ _ Hrows). cbn [bind].
  eexists. split; [done|]. split; [apply error_log_finish | done].
Qed.

Lemma check_s_t_separation_witness :
  ∃ v, check_s_t
         [[VStr "S1"; VStr "Ann"; VStr "Lee"; VStr ""; VStr "Smith"];
          [VStr "S2"; VStr ""; VStr "Tan"; VStr "C1"; VStr ""]] = Ok v
       ∧ concat (fst <$> error_log v)
         = ["Tutor is missing for student with Student ID S2"]
       ∧ warnings v
         = [newline +:+ "Students Tutors data Warnings:" +:+ newline;
            "Course is missing for student with Student ID S1";
            "First Name is missing for student with Student ID S2"].
Proof.
  apply (check_s_t_separation
           [[VStr "S1"; VStr "Ann"; VStr "Lee"; VStr ""; VStr "Smith"];
            [VStr "S2"; VStr ""; VStr "Tan"; VStr "C1"; VStr ""]]).
  repeat constructor; simpl; lia.
Defined.
End MoreValidators.

(** ** Loading and extracting *)

Section Loading.
Implicit Types (reader rows : list row) (line : row) (source : string).
Implicit Types (d : loaded) (logged : list (list string * string)).

Lemma load_data_step_keep line (acc : list row) :
  line ≠ [] →
  load_data_step line acc = Ok (acc ++ List.filter has_key [line]).
Proof.
  destruct line as [|key cells]; [done|]. intros _.
  unfold load_data_step. cbn. destruct (blank key); simpl; [|done].
  by rewrite app_nil_r.
Qed.

Lemma load_data_loop_inv reader (acc out : list row) :
  for_each load_data_step reader acc = Ok out →
  out = acc ++ List.filter has_key reader
  ∧ Forall (λ line, line ≠ []) reader.
Proof.
  revert acc. induction reader as [|line reader IH]; intros acc; simpl.
  - intros [= <-]. by rewrite app_nil_r.
  - destruct line as [|key cells]; [done|].
    rewrite load_data_step_keep by done. simpl.
    intros [-> Hne]%IH. split; [|by constructor].
    destruct (negb (blank key)); simpl; by rewrite <- ?app_assoc, ?app_nil_r.
Qed.

Lemma load_data_loop reader (acc : list row) :
  Forall (λ line, line ≠ []) reader →
  for_each load_data_step reader acc = Ok (acc ++ List.filter has_key reader).
Proof.
  intros Hne. revert acc.
  induction Hne as [|line reader Hline _ IH]; intros acc; simpl.
  - by rewrite app_nil_r.
  - rewrite load_data_step_keep by done. simpl. rewrite IH.
    destruct (has_key line); simpl; by rewrite <- ?app_assoc, ?app_nil_r.
Qed.

Lemma load_data_loop_raise reader (acc : list row) :
  Exists (λ line, line = []) reader →
  for_each load_data_step reader acc = Raise IndexError.
Proof.
  revert acc. induction reader as [|line reader IH]; intros acc Hex.
  - by apply Exists_nil in Hex.
  - simpl. destruct line as [|key cells]; [done|].
    rewrite load_data_step_keep by done. simpl. apply IH.
    by apply Exists_cons in Hex as [?|?].
Qed.

Lemma load_data_inv reader source d logged :
  load_data reader source = Ok (d, logged) →
  d = (List.filter has_key reader, false, [])
  ∧ Forall (λ line, line ≠ []) reader.
Proof.
  unfold load_data. intros H.
  destruct (for_each load_data_step reader []) as [kept| |] eqn:Hloop;
    simpl in H; try discriminate H.
  apply load_data_loop_inv in Hloop as [-> Hne].
  destruct (if bool_decide (source = "fields_data") then _ else _)
    as [l| |]; simpl in H; try discriminate H.
  by injection H as <- _.
Qed.

(** X13: what [load_data] hands back.  Whenever it returns, for any
    [source], the rows are the rows of the file whose first cell is
    neither [''] nor [None], in file order, and the other two components
    are [False] and the empty list: the warnings the validator finds
    never reach the caller. *)
Theorem load_data_returns_keyed_rows reader source d logged :
  load_data reader source = Ok (d, logged) →
  d = (List.filter has_key reader, false, []).
Proof.
  unfold load_data. intros H.
  destruct (for_each load_data_step reader []) as [kept| |] eqn:Hloop;
    simpl in H; try discriminate H.
  apply load_data_loop_inv in Hloop as [-> _].
  destruct (if bool_decide (source = "fields_data") then _ else _)
    as [l| |]; simpl in H; try discriminate H.
  by injection H as <- _.
Qed.

Lemma load_data_returns_keyed_rows_witness :
  (([[VStr "S1"; VStr ""; VStr "Lee"; VStr "x"];
     [VStr "S3"; VStr "Cy"; VStr "Roe"; VStr "y"]], false, []) : loaded)
  = (List.filter has_key
       [[VStr "S1"; VStr ""; VStr "Lee"; VStr "x"];
        [VStr ""; VStr "Bo"; VStr "Tan"; VStr ""];
        [VStr "S3"; VStr "Cy"; VStr "Roe"; VStr "y"]], false, []).
Proof.
  apply (load_data_returns_keyed_rows
           [[VStr "S1"; VStr ""; VStr "Lee"; VStr "x"];
            [VStr ""; VStr "Bo"; VStr "Tan"; VStr ""];
            [VStr "S3"; VStr "Cy"; VStr "Roe"; VStr "y"]]
           "fields_data" _ []).
  reflexivity.
Defined.

(** X14: a blank line stops the load.  An empty row, which is what the
    CSV reader yields for a blank line, makes [load_data] raise
    [IndexError] for every [source]; without one, and for a [source]
    that has no validator, [load_data] returns and logs nothing. *)
Theorem load_data_and_blank_lines reader source :
  (Exists (λ line, line = []) reader →
   load_data reader source = Raise IndexError)
  ∧ (Forall (λ line, line ≠ []) reader →
     source ≠ "fields_data" → source ≠ "students_tutors" →
     load_data reader source
     = Ok ((List.filter has_key reader, false, []), [])).
Proof.
  unfold load_data. split.
  - intros Hex. by rewrite load_data_loop_raise.
  - intros Hne H1 H2. rewrite load_data_loop by done. cbn [bind app].
    by rewrite (bool_decide_false _ H1), (bool_decide_false _ H2).
Qed.

Lemma load_data_and_blank_lines_witness :
  load_data [[VStr "Smith"]; []; [VStr "Jones"]] "tutor_names"
  = Raise IndexError
  ∧ load_data [[VStr "Smith"]; [VStr ""]; [VStr "Jones"]] "tutor_names"
    = Ok (([[VStr "Smith"]; [VStr "Jones"]], false, []), []).
Proof.
  split.
  - apply (proj1 (load_data_and_blank_lines _ _)).
    apply Exists_cons_tl, Exists_cons_hd. reflexivity.
  - apply (proj2 (load_data_and_blank_lines
                    [[VStr "Smith"]; [VStr ""]; [VStr "Jones"]]
                    "tutor_names")).
    + by repeat constructor.
    + discriminate.
    + discriminate.
Defined.

(** X15: what loading the profile file logs.  When the kept rows have
    four cells or more, loading with source ['fields_data'] logs one
    error for each kept record with an empty data payload; rows dropped
    for their blank id are not validated and add nothing to the log. *)
Theorem load_data_logs_kept_rows reader :
  Forall (λ line, line ≠ []) reader →
  Forall (λ line, 4 ≤ length line) (List.filter has_key reader) →
  ∃ logged,
    load_data reader "fields_data"
    = Ok ((List.filter has_key reader, false, []), logged)
    ∧ concat (fst <$> logged)
      = flat_map data_errors (List.filter has_key reader).
Proof.
  intros Hne Hrows. unfold load_data.
  rewrite load_data_loop by done. cbn [bind app].
  rewrite bool_decide_true by done.
  unfold check_fields_data. rewrite (check_fields_loop _ _ _ Hrows).
  cbn [bind]. eexists. split; [done|]. apply error_log_finish.
Qed.

Lemma load_data_logs_kept_rows_witness :
  ∃ logged,
    load_data [[VStr ""; VStr "Bo"; VStr "Tan"; VStr ""];
               [VStr "S3"; VStr "Cy"; VStr "Roe"; VStr ""]] "fields_data"
    = Ok (([[VStr "S3"; VStr "Cy"; VStr "Roe"; VStr ""]], false, []), logged)
    ∧ concat (fst <$> logged)
      = ["Data is missing for student with Student ID S3"].
Proof.
  apply (load_data_logs_kept_rows
           [[VStr ""; VStr "Bo"; VStr "Tan"; VStr ""];
            [VStr "S3"; VStr "Cy"; VStr "Roe"; VStr ""]]).
  - by repeat constructor.
  - repeat constructor; simpl; lia.
Defined.

Lemma for_each_append_all {A : Type} (xs acc : list A) :
  for_each (λ x out, Ok (out ++ [x])) xs acc = Ok (acc ++ xs).
Proof.
  revert acc. induction xs as [|x xs IH]; intros acc; simpl.
  - by rewrite app_nil_r.
  - rewrite IH. by rewrite <- app_assoc.
Qed.

(** X16: [extract_items] returns the loaded rows themselves, all of
    them and in order, for any loaded tuple. *)
Theorem extract_items_returns_rows rows (flag : bool) (ws : list string) :
  extract_items (rows, flag, ws) = Ok rows.
Proof.
  unfold extract_items, read_data. cbn [fst].
  rewrite while_index_all. apply for_each_append_all.
Qed.

Lemma extract_tutors_loop rows (acc : list value) :
  Forall (λ line, line ≠ []) rows →
  for_each (λ item out, let* tutor := getitem item 0 in Ok (out ++ [tutor]))
    rows acc
  = Ok (acc ++ ((λ line, nth 0 line VNone) <$> rows)).
Proof.
  intros Hne. revert acc.
  induction Hne as [|line rows Hline _ IH]; intros acc; simpl.
  - by rewrite app_nil_r.
  - destruct line as [|key cells]; [done|]. cbn. rewrite IH.
    by rewrite <- app_assoc.
Qed.

Lemma extract_tutors_loop_raise rows (acc : list value) :
  Exists (λ line, line = []) rows →
  for_each (λ item out, let* tutor := getitem item 0 in Ok (out ++ [tutor]))
    rows acc
  = Raise IndexError.
Proof.
  revert acc. induction rows as [|line rows IH]; intros acc Hex.
  - by apply Exists_nil in Hex.
  - simpl. destruct line as [|key cells]; [done|]. cbn. apply IH.
    by apply Exists_cons in Hex as [?|?].
Qed.

Lemma extract_tutors_keyed rows (flag : bool) (ws : list string) :
  Forall (λ line, line ≠ []) rows →
  extract_tutors (rows, flag, ws) = Ok ((λ line, nth 0 line VNone) <$> rows).
Proof.
  intros Hne. unfold extract_tutors, read_data. cbn [fst].
  by rewrite while_index_all, extract_tutors_loop.
Qed.

Lemma extract_items_rows rows (flag : bool) (ws : list string) :
  extract_items (rows, flag, ws) = Ok rows.
Proof.
  unfold extract_items, read_data. cbn [fst].
  rewrite while_index_all. apply for_each_append_all.
Qed.

(** X17: [extract_tutors] returns the first cell of every row, in order;
    it raises [IndexError] exactly when some row is empty. *)
Theorem extract_tutors_first_cells rows (flag : bool) (ws : list string) :
  (Forall (λ line, line ≠ []) rows →
   extract_tutors (rows, flag, ws)
   = Ok ((λ line, nth 0 line VNone) <$> rows))
  ∧ (extract_tutors (rows, flag, ws) = Raise IndexError
     ↔ Exists (λ line, line = []) rows).
Proof.
  split; [apply extract_tutors_keyed|].
  unfold extract_tutors, read_data. cbn [fst]. rewrite while_index_all.
  split.
  - intros H. destruct (decide (Exists (λ line : row, line = []) rows))
      as [|Hno]; [done|].
    apply not_Exists_Forall in Hno; [|apply _].
    rewrite extract_tutors_loop in H; [discriminate H | done].
  - apply extract_tutors_loop_raise.
Qed.

Lemma extract_tutors_first_cells_witness :
  extract_tutors ([[VStr "Smith"; VStr "x"]; [VStr "Jones"]], false, [])
  = Ok [VStr "Smith"; VStr "Jones"]
  ∧ extract_tutors ([[VStr "Smith"]; []], false, []) = Raise IndexError.
Proof.
  split.
  - apply (proj1 (extract_tutors_first_cells
                    [[VStr "Smith"; VStr "x"]; [VStr "Jones"]] false [])).
    by repeat constructor.
  - apply (proj2 (extract_tutors_first_cells _ false [])).
    apply Exists_cons_tl, Exists_cons_hd. reflexivity.
Defined.

Lemma has_key_not_empty reader :
  Forall (λ line, line ≠ []) (List.filter has_key reader).
Proof.
  apply Forall_forall. intros line Hin%list_elem_of_In%filter_In.
  destruct Hin as [_ Hkey]. by destruct line.
Qed.

Lemma has_key_names reader :
  Forall (λ name, blank name = false)
    ((λ line, nth 0 line VNone) <$> List.filter has_key reader).
Proof.
  apply Forall_fmap, Forall_forall.
  intros line Hin%list_elem_of_In%filter_In. destruct Hin as [_ Hkey].
  destruct line as [|key cells]; [done|]. simpl in *.
  by destruct (blank key).
Qed.

(** X18: a roster read from a file.  The roster made by [extract_tutors]
    from what [load_data] returns is always there -- no exception -- and
    holds no [None] and no empty name, so no roster entry matches every
    field and none makes the substring test raise. *)
Theorem loaded_roster_has_no_blank_name reader source d logged :
  load_data reader source = Ok (d, logged) →
  ∃ tutor_names,
    extract_tutors d = Ok tutor_names
    ∧ length tutor_names = length (read_data d)
    ∧ Forall (λ name, ∃ n, name = VStr n ∧ n ≠ "") tutor_names.
Proof.
  intros [-> _]%load_data_inv.
  eexists. split; [|split].
  - apply extract_tutors_keyed, has_key_not_empty.
  - by rewrite length_fmap.
  - eapply Forall_impl; [apply has_key_names|].
    intros [|n]; [done|]. intros Hn. exists n. split; [done|].
    intros ->. done.
Qed.

Lemma loaded_roster_has_no_blank_name_witness :
  ∃ tutor_names,
    extract_tutors ([[VStr "Smith"]; [VStr "Jones"; VStr "x"]], false, [])
    = Ok tutor_names
    ∧ length tutor_names = 2
    ∧ Forall (λ name, ∃ n, name = VStr n ∧ n ≠ "") tutor_names.
Proof.
  exact (loaded_roster_has_no_blank_name
           [[VStr "Smith"]; [VNone; VStr "y"]; [VStr "Jones"; VStr "x"]]
           "tutor_names"
           ([[VStr "Smith"]; [VStr "Jones"; VStr "x"]], false, []) []
           eq_refl).
Defined.
End Loading.

(** ** The two menu actions *)

Section Actions.
Implicit Types (fields tutors pairings reader : list row) (s : saved).
Implicit Types (d : loaded) (logged : list (list string * string)).

Lemma load_data_unvalidated_log reader source d logged :
  source ≠ "fields_data" → source ≠ "students_tutors" →
  load_data reader source = Ok (d, logged) → logged = [].
Proof.
  intros H1 H2. unfold load_data.
  destruct (for_each load_data_step reader []) as [kept| |];
    simpl; try discriminate.
  rewrite (bool_decide_false _ H1), (bool_decide_false _ H2). simpl.
  by intros [= _ <-].
Qed.

Lemma load_data_fields_log_title reader d logged :
  load_data reader "fields_data" = Ok (d, logged) →
  Forall (λ call, call.2 = "Student Profile Fields Report") logged.
Proof.
  unfold load_data.
  destruct (for_each load_data_step reader []) as [kept| |];
    simpl; try discriminate.
  unfold check_fields_data.
  destruct (for_each check_fields_step kept _) as [[errors warns]| |];
    simpl; try discriminate.
  intros [= _ <-]. case_bool_decide; by repeat constructor.
Qed.

(** X19: the tutor action as a whole.  What [process_tutor_names] hands
    to [save_students] is the output of [find_tutors] on the keyed rows
    of the profile file, with the first cells of the keyed rows of the
    tutors file as roster and the keyed rows of the pairings file as
    pairing table.  Only the profile file is validated: [check_s_t] is
    never run, so every logged error carries the profile report's
    title. *)
Theorem tutor_action_pipeline fields tutors pairings s :
  process_tutor_names fields tutors pairings = Ok s →
  find_tutors (List.filter has_key fields, false, [])
    ((λ line, nth 0 line VNone) <$> List.filter has_key tutors)
    (List.filter has_key pairings)
  = Ok (save_rows s)
  ∧ Forall (λ call, call.2 = "Student Profile Fields Report")
      (logged_errors s).
Proof.
  unfold process_tutor_names. intros H.
  destruct (load_data fields "fields_data") as [[d1 log1]| |] eqn:H1;
    simpl in H; try discriminate H.
  destruct (load_data tutors "tutor_names") as [[d2 log2]| |] eqn:H2;
    simpl in H; try discriminate H.
  pose proof (load_data_inv _ _ _ _ H1) as [-> _].
  pose proof (load_data_inv _ _ _ _ H2) as [-> _].
  rewrite (extract_tutors_keyed _ _ _ (has_key_not_empty tutors)) in H.
  simpl in H.
  destruct (load_data pairings "studentstutors.csv") as [[d3 log3]| |] eqn:H3;
    simpl in H; try discriminate H.
  pose proof (load_data_inv _ _ _ _ H3) as [-> _].
  rewrite extract_items_rows in H. simpl in H.
  destruct (find_tutors _ _ _) as [out| |]; simpl in H; try discriminate H.
  injection H as <-. simpl. split; [done|].
  apply load_data_unvalidated_log in H2; [|discriminate..].
  apply load_data_unvalidated_log in H3; [|discriminate..].
  subst log2 log3. rewrite app_nil_r.
  by eapply load_data_fields_log_title.
Qed.

Lemma tutor_action_pipeline_witness :
  find_tutors
    (List.filter has_key
       [[VStr "S1"; VStr "Ann"; VStr "Lee"; VStr "tutor Smith"];
        [VStr ""; VStr "Bo"; VStr "Tan"; VStr ""]], false, [])
    ((λ line, nth 0 line VNone)
       <$> List.filter has_key [[VStr "Smith"]; [VStr "Jones"]])
    (List.filter has_key
       [[VStr "S1"; VStr "Ann"; VStr "Lee"; VStr "C1"; VStr ""]])
  = Ok [[VStr "S1"; VStr "Ann"; VStr "Lee"; VStr ""]]
  ∧ Forall (λ call : list string * string,
              call.2 = "Student Profile Fields Report") [].
Proof.
  exact (tutor_action_pipeline
           [[VStr "S1"; VStr "Ann"; VStr "Lee"; VStr "tutor Smith"];
            [VStr ""; VStr "Bo"; VStr "Tan"; VStr ""]]
           [[VStr "Smith"]; [VStr "Jones"]]
           [[VStr "S1"; VStr "Ann"; VStr "Lee"; VStr "C1"; VStr ""]]
           {| logged_errors := [];
              save_headings :=
                ["Student ID"; "First Name"; "Last Name"; "Tutor"];
              save_rows := [[VStr "S1"; VStr "Ann"; VStr "Lee"; VStr ""]] |}
           eq_refl).
Defined.

(** X20: rows fit the header.  In both menu actions every row handed to
    [save_students] has as many cells as there are headings, three for
    the identifier action and four for the tutor action, and there are
    no more rows than the profile file has. *)
Theorem saved_rows_fit_headings :
  (∀ fields s,
     process_student_ids fields = Ok s →
     Forall (λ entry, length entry = length (save_headings s)) (save_rows s)
     ∧ length (save_rows s) ≤ length fields)
  ∧
  (∀ fields tutors pairings s,
     process_tutor_names fields tutors pairings = Ok s →
     Forall (λ entry, length entry = length (save_headings s)) (save_rows s)
     ∧ length (save_rows s) ≤ length fields).
Proof.
  split.
  - intros fields s. unfold process_student_ids. intros H.
    destruct (load_data fields "fields_data") as [[d1 log1]| |] eqn:H1;
      simpl in H; try discriminate H.
    pose proof (load_data_inv _ _ _ _ H1) as [-> _].
    destruct (find_student_ids _) as [out| |] eqn:Hout;
      simpl in H; try discriminate H.
    injection H as <-. simpl.
    rewrite find_student_ids_collect in Hout.
    apply (collect_bounded _ _ _ _ id_entries_cells) in Hout as [Hw Hlen].
    split; [done|]. pose proof (filter_length has_key fields). lia.
  - intros fields tutors pairings s. unfold process_tutor_names. intros H.
    destruct (load_data fields "fields_data") as [[d1 log1]| |] eqn:H1;
      simpl in H; try discriminate H.
    pose proof (load_data_inv _ _ _ _ H1) as [-> _].
    destruct (load_data tutors "tutor_names") as [[d2 log2]| |];
      simpl in H; try discriminate H.
    destruct (extract_tutors d2) as [names| |]; simpl in H;
      try discriminate H.
    destruct (load_data pairings "studentstutors.csv") as [[d3 log3]| |];
      simpl in H; try discriminate H.
    destruct (extract_items d3) as [st| |]; simpl in H; try discriminate H.
    destruct (find_tutors _ _ _) as [out| |] eqn:Hout;
      simpl in H; try discriminate H.
    injection H as <-. simpl.
    rewrite find_tutors_collect in Hout.
    apply (collect_bounded _ _ _ _ (tutor_entries_cells _ _)) in Hout
      as [Hw Hlen].
    split; [done|]. pose proof (filter_length has_key fields). lia.
Qed.

Lemma saved_rows_fit_headings_witness :
  (Forall (λ entry : row, length entry = 3)
     [[VStr "S1"; VStr "Ann"; VStr "Lee"]] ∧ 1 ≤ 2)
  ∧ (Forall (λ entry : row, length entry = 4)
       [[VStr "S1"; VStr "Ann"; VStr "Lee"; VStr ""]] ∧ 1 ≤ 2).
Proof.
  split.
  - exact (proj1 saved_rows_fit_headings
             [[VStr "S1"; VStr "Ann"; VStr "Lee"; VStr "none"];
              [VStr "FitNZ1234"; VStr "Bo"; VStr "Tan"; VStr "FitNZ1234"]]
             {| logged_errors := [];
                save_headings := ["Student ID"; "First Name"; "Last Name"];
                save_rows := [[VStr "S1"; VStr "Ann"; VStr "Lee"]] |}
             eq_refl).
  - exact (proj2 saved_rows_fit_headings
             [[VStr "S1"; VStr "Ann"; VStr "Lee"; VStr "none"];
              [VStr "S2"; VStr "Bo"; VStr "Tan"; VStr "Smith"]]
             [[VStr "Smith"]] []
             {| logged_errors := [];
                save_headings :=
                  ["Student ID"; "First Name"; "Last Name"; "Tutor"];
                save_rows := [[VStr "S1"; VStr "Ann"; VStr "Lee"; VStr ""]] |}
             eq_refl).
Defined.
End Actions.
